(** * Tournament results tracker: a shallow embedding of [tournament.py]

    The development follows the layout of the Python module: the values of
    the Python runtime the module relies on (floats, strings, dates, the
    [int] and [float] constructors), then the record model, the filter, the
    aggregation and the three groupings, and finally the properties of each
    of them.

    Conventions.
    - A Python [float] is an IEEE-754 binary64 value, represented by
      [spec_float] with the operations of [SpecFloat] at precision 53.
    - A Python [int] is a [Z].
    - A Python [str] is a [string] holding its UTF-8 bytes.  Case mapping and
      white space are those of the ASCII range; bytes above 127 are left
      untouched by [lower], [upper] and [strip].
    - A Python [dict] whose iteration order matters is an association list in
      insertion order; the CSV row, which is only looked up, is a [gmap].
    - A Python exception is [None] in an [option] result. *)

From Stdlib Require Import ZArith List String Ascii Bool Lia.
From Stdlib Require Import Sorting.Sorted Sorting.Permutation.
From Stdlib Require Import Floats.SpecFloat.
From stdpp Require Import base option gmap strings.

Import ListNotations.
Local Open Scope string_scope.
Local Open Scope list_scope.

(** ** Python floats *)

Module PyFloat.

Definition prec : Z := 53.
Definition emax : Z := 1024.

Definition zero : spec_float := S754_zero false.

Definition add : spec_float -> spec_float -> spec_float := SFadd prec emax.
Definition sub : spec_float -> spec_float -> spec_float := SFsub prec emax.
Definition mul : spec_float -> spec_float -> spec_float := SFmul prec emax.
Definition div : spec_float -> spec_float -> spec_float := SFdiv prec emax.

Definition ltb : spec_float -> spec_float -> bool := SFltb.
Definition leb : spec_float -> spec_float -> bool := SFleb.
(** [x > y] and [x >= y] are [y < x] and [y <= x]; all four are false as
    soon as one side is NaN. *)
Definition gtb (x y : spec_float) : bool := SFltb y x.
Definition geb (x y : spec_float) : bool := SFleb y x.

Definition is_zero (x : spec_float) : bool :=
  match x with S754_zero _ => true | _ => false end.

Definition is_nan (x : spec_float) : bool :=
  match x with S754_nan => true | _ => false end.

(** Conversion of an integer, rounding to nearest even; exact below 2^53. *)
Definition of_Z (n : Z) : spec_float := binary_normalize prec emax n 0 false.

(** The binary64 value nearest to the rational [p / q]. *)
Definition of_ratio (neg : bool) (p q : positive) : spec_float :=
  let '(m, e, l) := SFdiv_core_binary prec emax (Zpos p) 0 (Zpos q) 0 in
  binary_round_aux prec emax neg m e l.

(** [x / y] on floats raises [ZeroDivisionError] when [y] is a zero. *)
Definition truediv (x y : spec_float) : option spec_float :=
  if is_zero y then None else Some (div x y).

(** The correctly rounded quotient of two ints, for a divisor that is not
    zero. *)
Definition int_quotient (a b : Z) : spec_float :=
  let neg := xorb (a <? 0)%Z (b <? 0)%Z in
  match a with
  | Z0 => S754_zero neg
  | _ => of_ratio neg (Z.to_pos (Z.abs a)) (Z.to_pos (Z.abs b))
  end.

(** [a / b] on ints raises [ZeroDivisionError] when [b] is zero.  (The
    [OverflowError] of a quotient beyond the float range is not
    modelled.) *)
Definition int_truediv (a b : Z) : option spec_float :=
  if (b =? 0)%Z then None else Some (int_quotient a b).

End PyFloat.

(** ** Python strings

    A text is the string of its bytes.  The letters, the digits and the
    white space below are those of ASCII: [lower], [upper] and [strip] are
    the methods of [str] on ASCII text, and leave every other byte as it
    is, where [str] also maps and strips the letters and the spaces outside
    ASCII. *)

Module PyStr.

Definition is_upper (c : ascii) : bool :=
  let n := N_of_ascii c in (65 <=? n)%N && (n <=? 90)%N.

Definition is_lower (c : ascii) : bool :=
  let n := N_of_ascii c in (97 <=? n)%N && (n <=? 122)%N.

Definition is_digit (c : ascii) : bool :=
  let n := N_of_ascii c in (48 <=? n)%N && (n <=? 57)%N.

(** White space of [str.strip]: TAB, LF, VT, FF, CR, FS, GS, RS, US and
    space. *)
Definition is_space (c : ascii) : bool :=
  let n := N_of_ascii c in
  ((9 <=? n)%N && (n <=? 13)%N) || ((28 <=? n)%N && (n <=? 32)%N).

Definition lower_char (c : ascii) : ascii :=
  if is_upper c then ascii_of_N (N_of_ascii c + 32) else c.

Definition upper_char (c : ascii) : ascii :=
  if is_lower c then ascii_of_N (N_of_ascii c - 32) else c.

Fixpoint lower (s : string) : string :=
  match s with
  | EmptyString => EmptyString
  | String c r => String (lower_char c) (lower r)
  end.

Fixpoint upper (s : string) : string :=
  match s with
  | EmptyString => EmptyString
  | String c r => String (upper_char c) (upper r)
  end.

Fixpoint lstrip (s : string) : string :=
  match s with
  | EmptyString => EmptyString
  | String c r => if is_space c then lstrip r else s
  end.

(** [rstrip] drops the trailing white space: a character is kept when it is
    not a space or when something is kept after it. *)
Fixpoint rstrip (s : string) : string :=
  match s with
  | EmptyString => EmptyString
  | String c r =>
      match rstrip r with
      | EmptyString => if is_space c then EmptyString else String c EmptyString
      | r' => String c r'
      end
  end.

Definition strip (s : string) : string := rstrip (lstrip s).

(** Truth value of a string: empty strings are false. *)
Definition truthy (s : string) : bool :=
  match s with EmptyString => false | _ => true end.

(** [a or b] on strings. *)
Definition or_else (a b : string) : string := if truthy a then a else b.

End PyStr.

(** ** Python ints as text *)

Module PyInt.

Definition digit_char (d : Z) : ascii := ascii_of_N (Z.to_N (48 + d)).

Definition digit_val (c : ascii) : Z := Z.of_N (N_of_ascii c) - 48.

(** Decimal digits of a non-negative number, most significant first;
    [fuel] bounds the number of digits. *)
Fixpoint digits_aux (fuel : nat) (n : Z) (acc : string) : string :=
  match fuel with
  | O => acc
  | S fuel' =>
      let acc' := String (digit_char (n mod 10)) acc in
      if (n <? 10)%Z then acc' else digits_aux fuel' (n / 10) acc'
  end.

(** [str(n)], for an [n] of at most 4300 digits; for a longer one [str]
    raises [ValueError], which no date field and no count reaches. *)
Definition str (n : Z) : string :=
  let a := Z.abs n in
  let ds := digits_aux (S (Z.to_nat (Z.log2 a))) a EmptyString in
  if (n <? 0)%Z then String "-" ds else ds.

Fixpoint zeros (k : nat) : string :=
  match k with O => EmptyString | S k' => String "0" (zeros k') end.

(** [format(n, "0wd")] for a non-negative [n]: left padding with zeros up
    to width [w]. *)
Definition zfill (w : nat) (n : Z) : string :=
  let s := str n in zeros (w - String.length s) ++ s.

(** Value of a run of decimal digits, read left to right. *)
Definition value_of_digits (ds : list ascii) : Z :=
  fold_left (fun acc c => (10 * acc + digit_val c)%Z) ds 0%Z.

End PyInt.

(** ** Python dates *)

Module PyDate.

Record date : Type := mkdate { year : Z; month : Z; day : Z }.

Definition is_leap (y : Z) : bool :=
  ((y mod 4 =? 0) && (negb (y mod 100 =? 0) || (y mod 400 =? 0)))%Z.

Definition days_in_month (y m : Z) : Z :=
  match m with
  | 2%Z => if is_leap y then 29 else 28
  | 4%Z | 6%Z | 9%Z | 11%Z => 30
  | _ => 31
  end.

(** What the constructor [date(y, m, d)] accepts. *)
Definition valid_ymd (y m d : Z) : bool :=
  ((1 <=? y) && (y <=? 9999) && (1 <=? m) && (m <=? 12)
   && (1 <=? d) && (d <=? days_in_month y m))%Z.

Definition valid (x : date) : bool := valid_ymd (year x) (month x) (day x).

(** Dates compare as the triples (year, month, day). *)
Definition compare (a b : date) : comparison :=
  match (year a ?= year b)%Z with
  | Eq => match (month a ?= month b)%Z with
          | Eq => (day a ?= day b)%Z
          | c => c
          end
  | c => c
  end.

Definition ltb (a b : date) : bool :=
  match compare a b with Lt => true | _ => false end.
Definition gtb (a b : date) : bool :=
  match compare a b with Gt => true | _ => false end.
Definition leb (a b : date) : bool := negb (gtb a b).
Definition geb (a b : date) : bool := negb (ltb a b).

(** Proleptic Gregorian ordinal, as in [datetime.date.toordinal]. *)
Definition days_before_year (y : Z) : Z :=
  let p := (y - 1)%Z in (p * 365 + p / 4 - p / 100 + p / 400)%Z.

Definition days_before_month (y m : Z) : Z :=
  fold_left Z.add (map (days_in_month y) (map Z.of_nat (seq 1 (Z.to_nat (m - 1))))) 0%Z.

Definition ymd2ord (y m d : Z) : Z :=
  (days_before_year y + days_before_month y m + d)%Z.

Definition toordinal (x : date) : Z := ymd2ord (year x) (month x) (day x).

(** Ordinal of the Monday that starts ISO week 1 of year [y]. *)
Definition isoweek1monday (y : Z) : Z :=
  let firstday := ymd2ord y 1 1 in
  let firstweekday := ((firstday + 6) mod 7)%Z in
  let week1monday := (firstday - firstweekday)%Z in
  if (3 <? firstweekday)%Z then (week1monday + 7)%Z else week1monday.

(** [isocalendar()]: ISO year, ISO week (1..53), ISO weekday (1..7). *)
Definition isocalendar (x : date) : Z * Z * Z :=
  let y := year x in
  let today := toordinal x in
  let week1monday := isoweek1monday y in
  let week := ((today - week1monday) / 7)%Z in
  let wday := ((today - week1monday) mod 7)%Z in
  if (week <? 0)%Z then
    let week1monday' := isoweek1monday (y - 1) in
    (y - 1, (today - week1monday') / 7 + 1, (today - week1monday') mod 7 + 1)%Z
  else if (52 <=? week)%Z && (isoweek1monday (y + 1) <=? today)%Z then
    (y + 1, 1, wday + 1)%Z
  else
    (y, week + 1, wday + 1)%Z.

(** [strftime("%Y-%m-%d")] and [strftime("%Y-%m")] as the C library under
    CPython on Linux (glibc) writes them: the month and the day on two
    digits, the year in decimal without padding, hence on fewer than four
    digits before the year 1000. *)
Definition strftime_Ymd (x : date) : string :=
  PyInt.str (year x) ++ "-" ++ PyInt.zfill 2 (month x) ++ "-" ++ PyInt.zfill 2 (day x).

Definition strftime_Ym (x : date) : string :=
  PyInt.str (year x) ++ "-" ++ PyInt.zfill 2 (month x).

(** *** [datetime.strptime(s, "%Y-%m-%d").date()]

    The format compiles to the regular expression
    [(\d\d\d\d)-(1[0-2]|0[1-9]|[1-9])-(3[0-1]|[1-2]\d|0[1-9]|[1-9]| [1-9])],
    matched at the start of the text; text left over after the match and
    field values that do not make a date are both a [ValueError].  The
    digits read are the ASCII ones, which is all of [\d] on ASCII text. *)

Definition in_range (lo hi : N) (c : ascii) : bool :=
  let n := N_of_ascii c in (lo <=? n)%N && (n <=? hi)%N.

Definition dig (c : ascii) : Z := PyInt.digit_val c.

Definition parse_year (cs : list ascii) : option (Z * list ascii) :=
  match cs with
  | a :: b :: c :: d :: rest =>
      if forallb PyStr.is_digit [a; b; c; d]
      then Some (PyInt.value_of_digits [a; b; c; d], rest)
      else None
  | _ => None
  end.

Definition parse_month (cs : list ascii) : option (Z * list ascii) :=
  match cs with
  | a :: b :: rest =>
      if Ascii.eqb a "1" && in_range 48 50 b then Some (10 + dig b, rest)%Z
      else if Ascii.eqb a "0" && in_range 49 57 b then Some (dig b, rest)
      else if in_range 49 57 a then Some (dig a, b :: rest)
      else None
  | [a] => if in_range 49 57 a then Some (dig a, []) else None
  | [] => None
  end.

Definition parse_day (cs : list ascii) : option (Z * list ascii) :=
  match cs with
  | a :: b :: rest =>
      if Ascii.eqb a "3" && in_range 48 49 b then Some (30 + dig b, rest)%Z
      else if in_range 49 50 a && PyStr.is_digit b then Some (10 * dig a + dig b, rest)%Z
      else if Ascii.eqb a "0" && in_range 49 57 b then Some (dig b, rest)
      else if in_range 49 57 a then Some (dig a, b :: rest)
      else if Ascii.eqb a " " && in_range 49 57 b then Some (dig b, rest)
      else None
  | [a] => if in_range 49 57 a then Some (dig a, []) else None
  | [] => None
  end.

Definition expect (c : ascii) (cs : list ascii) : option (list ascii) :=
  match cs with
  | a :: rest => if Ascii.eqb a c then Some rest else None
  | [] => None
  end.

Definition strptime_Ymd (s : string) : option date :=
  '(y, r1) ← parse_year (list_ascii_of_string s);
  r2 ← expect "-" r1;
  '(m, r3) ← parse_month r2;
  r4 ← expect "-" r3;
  '(d, r5) ← parse_day r4;
  match r5 with
  | [] => if valid_ymd y m d then Some (mkdate y m d) else None
  | _ => None
  end.

End PyDate.

(** ** The [int] and [float] constructors on text

    On ASCII text: the digits and the white space are the ASCII ones. *)

Module PyParse.

(** White space skipped by [int] and [float] at both ends of the text. *)
Definition is_cspace (c : ascii) : bool :=
  let n := N_of_ascii c in ((9 <=? n)%N && (n <=? 13)%N) || (n =? 32)%N.

Fixpoint span (p : ascii -> bool) (cs : list ascii) : list ascii * list ascii :=
  match cs with
  | c :: r => if p c then let '(a, b) := span p r in (c :: a, b) else ([], cs)
  | [] => ([], [])
  end.

Definition drop_while (p : ascii -> bool) (cs : list ascii) : list ascii :=
  snd (span p cs).

Definition trim (cs : list ascii) : list ascii :=
  rev (drop_while is_cspace (rev (drop_while is_cspace cs))).

Definition is_underscore (c : ascii) : bool := Ascii.eqb c "_".

(** An underscore is accepted only between two digits. *)
Fixpoint underscores_ok (prev : ascii) (cs : list ascii) : bool :=
  match cs with
  | [] => negb (is_underscore prev)
  | c :: r =>
      (if is_underscore c then PyStr.is_digit prev
       else if is_underscore prev then PyStr.is_digit c
       else true)
      && underscores_ok c r
  end.

Definition remove_underscores (cs : list ascii) : list ascii :=
  List.filter (fun c => negb (is_underscore c)) cs.

Definition parse_sign (cs : list ascii) : bool * list ascii :=
  match cs with
  | c :: r =>
      if Ascii.eqb c "-" then (true, r)
      else if Ascii.eqb c "+" then (false, r)
      else (false, cs)
  | [] => (false, [])
  end.

Definition is_nil {A} (l : list A) : bool :=
  match l with [] => true | _ => false end.

(** The most digits [int] converts ([sys.get_int_max_str_digits()]). *)
Definition int_max_str_digits : Z := 4300.

(** [int(s)] in base 10; [None] stands for [ValueError], which is also
    raised for more than [int_max_str_digits] digits, leading zeros
    counted and underscores not. *)
Definition py_int (s : string) : option Z :=
  let cs := trim (list_ascii_of_string s) in
  let '(neg, r) := parse_sign cs in
  if is_nil r then None
  else if negb (forallb (fun c => PyStr.is_digit c || is_underscore c) r) then None
  else if negb (underscores_ok "000" r) then None
  else if (int_max_str_digits <? Z.of_nat (List.length (remove_underscores r)))%Z then None
  else
    let v := PyInt.value_of_digits (remove_underscores r) in
    Some (if neg then (- v)%Z else v).

(** The value [m * 10^e] of a decimal literal, rounded to nearest even. *)
Definition decimal_value (neg : bool) (m e : Z) : spec_float :=
  match m with
  | Zpos p =>
      match e with
      | Zneg k => PyFloat.of_ratio neg p (Pos.pow 10 k)
      | Z0 => PyFloat.of_ratio neg p 1
      | Zpos k => PyFloat.of_ratio neg (p * Pos.pow 10 k) 1
      end
  | _ => S754_zero neg
  end.

Definition parse_inf_nan (cs : list ascii) : option spec_float :=
  let '(neg, r) := parse_sign cs in
  let w := PyStr.lower (string_of_list_ascii r) in
  if String.eqb w "inf" || String.eqb w "infinity" then Some (S754_infinity neg)
  else if String.eqb w "nan" then Some S754_nan
  else None.

Definition is_exp_mark (c : ascii) : bool := Ascii.eqb c "e" || Ascii.eqb c "E".

(** [digits [. digits] [(e|E) [sign] digits]] with at least one digit
    before the exponent, and nothing after it. *)
Definition parse_decimal (cs : list ascii) : option spec_float :=
  let '(neg, r) := parse_sign cs in
  let '(ip, r1) := span PyStr.is_digit r in
  let '(fp, r2) :=
    match r1 with
    | c :: t => if Ascii.eqb c "." then span PyStr.is_digit t else ([], r1)
    | [] => ([], r1)
    end in
  if is_nil ip && is_nil fp then None
  else
    let m := PyInt.value_of_digits (ip ++ fp) in
    let k := Z.of_nat (List.length fp) in
    match r2 with
    | [] => Some (decimal_value neg m (- k))
    | c :: t =>
        if is_exp_mark c then
          let '(eneg, t1) := parse_sign t in
          let '(ed, t2) := span PyStr.is_digit t1 in
          if is_nil ed || negb (is_nil t2) then None
          else
            let ev := PyInt.value_of_digits ed in
            Some (decimal_value neg m ((if eneg then - ev else ev) - k))
        else None
    end.

(** [float(s)]; [None] stands for [ValueError]. *)
Definition py_float (s : string) : option spec_float :=
  let cs := trim (list_ascii_of_string s) in
  if negb (underscores_ok "000" cs) then None
  else
    let cs' := remove_underscores cs in
    match parse_decimal cs' with
    | Some x => Some x
    | None => parse_inf_nan cs'
    end.

End PyParse.

(** ** Data model *)

(** The eleven columns of the ledger. *)
Definition CSV_HEADERS : list string :=
  ["date"; "room"; "name"; "buy_in"; "rake"; "currency"; "result"; "place";
   "players"; "format"; "notes"].

(** A cell handed over by [csv.DictReader]: text, or [None] for a column the
    line is too short to reach. *)
Inductive pyval : Type :=
| PyText (s : string)
| PyNone.

Definition parse_date (v : pyval) : option PyDate.date :=
  match v with
  | PyText s => PyDate.strptime_Ymd s
  | PyNone => None
  end.

Module Tournament.

Record t : Type := mk {
  date : PyDate.date;
  room : string;
  name : string;
  buy_in : spec_float;
  rake : spec_float;
  currency : string;
  result : spec_float;
  place : Z;
  players : Z;
  format : string;
  notes : string
}.

Definition total_cost (x : t) : spec_float := PyFloat.add (buy_in x) (rake x).

Definition profit (x : t) : spec_float := PyFloat.sub (result x) (total_cost x).

Definition is_itm (x : t) : bool := PyFloat.gtb (result x) PyFloat.zero.

End Tournament.

(** What [from_csv_row] prints before returning [None]. *)
Inductive diagnostic : Type :=
| BadDate (shown : pyval)   (* the date warning, with [repr(row.get('date'))] *)
| BadRow.                   (* the row warning, with the exception text *)

Definition to_float (value : string) : spec_float :=
  let value := PyStr.strip value in
  if negb (PyStr.truthy value) then PyFloat.zero
  else match PyParse.py_float value with
       | Some x => x
       | None => PyFloat.zero
       end.

Definition to_int (value : string) : Z :=
  let value := PyStr.strip value in
  if negb (PyStr.truthy value) then 0%Z
  else match PyParse.py_int value with
       | Some n => n
       | None => 0%Z
       end.

(** [row.get(key, default)] followed by a string method: the method call
    raises [AttributeError] on [None]. *)
Definition get_text (row : gmap string pyval) (key default : string) : option string :=
  match row !! key with
  | Some (PyText s) => Some s
  | Some PyNone => None
  | None => Some default
  end.

(** [row.get('date')] *)
Definition get_date (row : gmap string pyval) : pyval :=
  match row !! "date" with
  | Some v => v
  | None => PyNone
  end.

(** The second [try] block of [from_csv_row]; [None] is a caught exception. *)
Definition build (d : PyDate.date) (row : gmap string pyval) : option Tournament.t :=
  room ← get_text row "room" "";
  name ← get_text row "name" "";
  buy_in ← get_text row "buy_in" "0";
  rake ← get_text row "rake" "0";
  currency ← get_text row "currency" "";
  result ← get_text row "result" "0";
  place ← get_text row "place" "0";
  players ← get_text row "players" "0";
  format ← get_text row "format" "";
  notes ← get_text row "notes" "";
  Some (Tournament.mk d
          (PyStr.strip room)
          (PyStr.strip name)
          (to_float buy_in)
          (to_float rake)
          (PyStr.or_else (PyStr.strip currency) "USD")
          (to_float result)
          (to_int place)
          (to_int players)
          (PyStr.strip format)
          (PyStr.strip notes)).

(** [Tournament.from_csv_row]: the returned value and the lines printed. *)
Definition from_csv_row (row : gmap string pyval) : option Tournament.t * list diagnostic :=
  match (v ← row !! "date"; parse_date v) with
  | None => (None, [BadDate (get_date row)])
  | Some d =>
      match build d row with
      | Some x => (Some x, [])
      | None => (None, [BadRow])
      end
  end.

(** ** Filter *)

(** [crit and field.lower() != crit.lower()] for an optional text criterion:
    [None] and the empty string are both false in a condition. *)
Definition mismatch_lower (crit : option string) (field : string) : bool :=
  match crit with
  | Some c => PyStr.truthy c && negb (String.eqb (PyStr.lower field) (PyStr.lower c))
  | None => false
  end.

Definition mismatch_upper (crit : option string) (field : string) : bool :=
  match crit with
  | Some c => PyStr.truthy c && negb (String.eqb (PyStr.upper field) (PyStr.upper c))
  | None => false
  end.

Definition before (bound : option PyDate.date) (d : PyDate.date) : bool :=
  match bound with
  | Some b => PyDate.ltb d b
  | None => false
  end.

Definition after (bound : option PyDate.date) (d : PyDate.date) : bool :=
  match bound with
  | Some b => PyDate.gtb d b
  | None => false
  end.

(** The loop of [filter_tournaments]: each [continue] leaves [result] as it
    is, the last statement appends. *)
Definition filter_tournaments
    (tournaments : list Tournament.t)
    (from_date to_date : option PyDate.date)
    (room format_ currency : option string) : list Tournament.t :=
  fold_left
    (fun result t =>
       if before from_date (Tournament.date t) then result
       else if after to_date (Tournament.date t) then result
       else if mismatch_lower room (Tournament.room t) then result
       else if mismatch_lower format_ (Tournament.format t) then result
       else if mismatch_upper currency (Tournament.currency t) then result
       else result ++ [t])
    tournaments [].

(** ** Aggregation *)

Module Stats.

(** The dictionary returned by [calc_summary_stats], one field per key. *)
Record t : Type := mk {
  total : Z;
  total_itm : Z;
  total_buy_in : spec_float;
  total_rake : spec_float;
  total_cost : spec_float;
  total_result : spec_float;
  profit : spec_float;
  itm_pct : spec_float;
  roi_pct : spec_float
}.

End Stats.

(** [sum(xs)]: the accumulator starts at the int [0], which is the float
    [0.0] as soon as a float is added to it. *)
Definition py_sum_float (xs : list spec_float) : spec_float :=
  fold_left PyFloat.add xs PyFloat.zero.

Definition py_sum_int (xs : list Z) : Z := fold_left Z.add xs 0%Z.

Definition hundred : spec_float := PyFloat.of_Z 100.

(** [None] is a [ZeroDivisionError] escaping the function. *)
Definition calc_summary_stats (tournaments : list Tournament.t) : option Stats.t :=
  let total := Z.of_nat (List.length tournaments) in
  let total_itm :=
    py_sum_int (map (fun _ => 1%Z) (List.filter Tournament.is_itm tournaments)) in
  let total_buy_in := py_sum_float (map Tournament.buy_in tournaments) in
  let total_rake := py_sum_float (map Tournament.rake tournaments) in
  let total_cost := PyFloat.add total_buy_in total_rake in
  let total_result := py_sum_float (map Tournament.result tournaments) in
  let profit := PyFloat.sub total_result total_cost in
  itm_pct ←
    (if negb (total =? 0)%Z
     then q ← PyFloat.int_truediv total_itm total; Some (PyFloat.mul q hundred)
     else Some PyFloat.zero);
  roi_pct ←
    (if PyFloat.gtb total_cost PyFloat.zero
     then q ← PyFloat.truediv profit total_cost; Some (PyFloat.mul q hundred)
     else Some PyFloat.zero);
  Some (Stats.mk total total_itm total_buy_in total_rake total_cost
          total_result profit itm_pct roi_pct).

(** ** Grouping *)

(** A dictionary from keys to lists of records, in insertion order. *)
Definition groups : Type := list (string * list Tournament.t).

(** [d[key].append(t)] on a [defaultdict(list)]: a missing key is inserted
    last with an empty list before the append. *)
Fixpoint dict_append (key : string) (t : Tournament.t) (d : groups) : groups :=
  match d with
  | [] => [(key, [t])]
  | (k, ts) :: rest =>
      if String.eqb k key then (k, ts ++ [t]) :: rest
      else (k, ts) :: dict_append key t rest
  end.

(** [d[key].append(t)] on a plain [dict] that holds [key]. *)
Fixpoint append_at (key : string) (t : Tournament.t) (d : groups) : groups :=
  match d with
  | [] => []
  | (k, ts) :: rest =>
      if String.eqb k key then (k, ts ++ [t]) :: rest
      else (k, ts) :: append_at key t rest
  end.

(** [d[key]] for reading, with the empty list for a missing key. *)
Fixpoint bucket (key : string) (d : groups) : list Tournament.t :=
  match d with
  | [] => []
  | (k, ts) :: rest => if String.eqb k key then ts else bucket key rest
  end.

Definition format_key (t : Tournament.t) : string :=
  PyStr.or_else (Tournament.format t) "UNKNOWN".

Definition group_by_format (tournaments : list Tournament.t) : groups :=
  fold_left (fun groups t => dict_append (format_key t) t groups) tournaments [].

Definition five : spec_float := PyFloat.of_Z 5.
Definition eleven : spec_float := PyFloat.of_Z 11.
Definition thirty_three : spec_float := PyFloat.of_Z 33.

(** The [if]/[elif] chain of [group_by_buyin_range], as the label chosen. *)
Definition buyin_label (bi : spec_float) : string :=
  if PyFloat.ltb bi five then "0–5"
  else if PyFloat.leb five bi && PyFloat.ltb bi eleven then "5–11"
  else if PyFloat.leb eleven bi && PyFloat.ltb bi thirty_three then "11–33"
  else "33+".

Definition group_by_buyin_range (tournaments : list Tournament.t) : groups :=
  let ranges : groups := [("0–5", []); ("5–11", []); ("11–33", []); ("33+", [])] in
  fold_left
    (fun ranges t => append_at (buyin_label (Tournament.buy_in t)) t ranges)
    tournaments ranges.

(** The key computed in the loop of [group_by_time]. *)
Definition time_key (show_by : string) (t : Tournament.t) : string :=
  if String.eqb show_by "day" then PyDate.strftime_Ymd (Tournament.date t)
  else if String.eqb show_by "week" then
    let '(iso_year, iso_week, _) := PyDate.isocalendar (Tournament.date t) in
    PyInt.str iso_year ++ "-W" ++ PyInt.zfill 2 iso_week
  else if String.eqb show_by "month" then PyDate.strftime_Ym (Tournament.date t)
  else "ALL".

(** [sorted(items, key=lambda kv: kv[0])]: a stable sort on the keys with the
    order of [str]; here by insertion, an entry going in front of the first
    entry whose key is not smaller. *)
Fixpoint insert_by_key (x : string * list Tournament.t) (l : groups) : groups :=
  match l with
  | [] => [x]
  | y :: r =>
      if String.ltb (fst y) (fst x) then y :: insert_by_key x r
      else x :: y :: r
  end.

Definition py_sorted (l : groups) : groups := fold_right insert_by_key [] l.

Definition group_by_time (tournaments : list Tournament.t) (show_by : string) : groups :=
  if String.eqb show_by "none" then [("ALL", tournaments)]
  else
    let buckets :=
      fold_left (fun buckets t => dict_append (time_key show_by t) t buckets)
        tournaments [] in
    py_sorted buckets.

(** ** Sample records *)

Definition sample_date : PyDate.date := PyDate.mkdate 2024 1 1.

(** A record with the given buy-in, rake and result (whole amounts). *)
Definition sample (bi rk res : Z) : Tournament.t :=
  Tournament.mk sample_date "PokerOK" "Daily" (PyFloat.of_Z bi) (PyFloat.of_Z rk)
    "USD" (PyFloat.of_Z res) 0 0 "MTT" "".

(** The two records of scenario C. *)
Definition scenario_C : list Tournament.t := [sample 5 0 0; sample 5 0 20].

(** ** Reference definitions for the aggregation *)

(** Number of records in the money. *)
Definition itm_count (ts : list Tournament.t) : Z :=
  Z.of_nat (List.length (List.filter (fun t => PyFloat.gtb (Tournament.result t) PyFloat.zero) ts)).

(** The two percentages, with their guards. *)
Definition itm_percent (itm count : Z) : spec_float :=
  if (0 <? count)%Z then PyFloat.mul (PyFloat.int_quotient itm count) hundred
  else PyFloat.zero.

Definition roi_percent (profit cost : spec_float) : spec_float :=
  if PyFloat.gtb cost PyFloat.zero then PyFloat.mul (PyFloat.div profit cost) hundred
  else PyFloat.zero.

Definition zero_stats : Stats.t :=
  Stats.mk 0 0 PyFloat.zero PyFloat.zero PyFloat.zero PyFloat.zero PyFloat.zero
    PyFloat.zero PyFloat.zero.

(** ** Reference definitions for the filter *)

(** Two characters that are equal or are the two cases of one letter. *)
Definition same_letter (a b : ascii) : Prop :=
  a = b
  \/ (PyStr.is_upper a = true /\ b = PyStr.lower_char a)
  \/ (PyStr.is_upper b = true /\ a = PyStr.lower_char b).

(** Case-insensitive equality of two strings, character by character. *)
Fixpoint eq_nocase (a b : string) : Prop :=
  match a, b with
  | EmptyString, EmptyString => True
  | String x r, String y s => same_letter x y /\ eq_nocase r s
  | _, _ => False
  end.

#[global] Instance same_letter_dec (a b : ascii) : Decision (same_letter a b).
Proof. unfold same_letter. apply _. Defined.

#[global] Instance eq_nocase_dec (a b : string) : Decision (eq_nocase a b).
Proof.
  revert b. induction a as [|x r IH]; intros [|y s]; simpl; apply _.
Defined.

(** The order of dates: that of the triples (year, month, day). *)
Definition date_le (a b : PyDate.date) : Prop :=
  (PyDate.year a < PyDate.year b)%Z
  \/ (PyDate.year a = PyDate.year b
      /\ ((PyDate.month a < PyDate.month b)%Z
          \/ (PyDate.month a = PyDate.month b /\ (PyDate.day a <= PyDate.day b)%Z))).

#[global] Instance date_le_dec (a b : PyDate.date) : Decision (date_le a b).
Proof. unfold date_le. apply _. Defined.

Module Criteria.

(** The five optional parameters of [filter_tournaments]. *)
Record t : Type := mk {
  from_date : option PyDate.date;
  to_date : option PyDate.date;
  room : option string;
  format_ : option string;
  currency : option string
}.

End Criteria.

Definition run_filter (ts : list Tournament.t) (c : Criteria.t) : list Tournament.t :=
  filter_tournaments ts (Criteria.from_date c) (Criteria.to_date c)
    (Criteria.room c) (Criteria.format_ c) (Criteria.currency c).

Definition not_before (bound : option PyDate.date) (d : PyDate.date) : Prop :=
  match bound with
  | Some b => date_le b d
  | None => True
  end.

Definition not_after (bound : option PyDate.date) (d : PyDate.date) : Prop :=
  match bound with
  | Some b => date_le d b
  | None => True
  end.

(** A text criterion read literally: whenever a value is supplied, the field
    must equal it up to case. *)
Definition text_matches_stated (crit : option string) (field : string) : Prop :=
  match crit with
  | Some c => eq_nocase field c
  | None => True
  end.

(** A text criterion as the filter applies it, [fold] being [lower] for the
    room and the format and [upper] for the currency: a criterion that is
    absent or empty constrains nothing, any other must equal the field once
    both are folded. *)
Definition criterion_met (fold : string -> string) (crit : option string)
    (field : string) : Prop :=
  match crit with
  | Some c => c = "" \/ fold field = fold c
  | None => True
  end.

(** Text made of ASCII characters only, on which folding both sides and
    comparing is equality up to case, letter by letter. *)
Definition is_ascii (s : string) : bool :=
  forallb (fun c => (N_of_ascii c <? 128)%N) (list_ascii_of_string s).

Definition satisfies_stated (c : Criteria.t) (t : Tournament.t) : Prop :=
  not_before (Criteria.from_date c) (Tournament.date t)
  /\ not_after (Criteria.to_date c) (Tournament.date t)
  /\ text_matches_stated (Criteria.room c) (Tournament.room t)
  /\ text_matches_stated (Criteria.format_ c) (Tournament.format t)
  /\ text_matches_stated (Criteria.currency c) (Tournament.currency t).

Definition selected (c : Criteria.t) (t : Tournament.t) : Prop :=
  not_before (Criteria.from_date c) (Tournament.date t)
  /\ not_after (Criteria.to_date c) (Tournament.date t)
  /\ criterion_met PyStr.lower (Criteria.room c) (Tournament.room t)
  /\ criterion_met PyStr.lower (Criteria.format_ c) (Tournament.format t)
  /\ criterion_met PyStr.upper (Criteria.currency c) (Tournament.currency t).

#[global] Instance selected_dec (c : Criteria.t) (t : Tournament.t) : Decision (selected c t).
Proof.
  unfold selected, not_before, not_after, criterion_met.
  destruct (Criteria.from_date c), (Criteria.to_date c), (Criteria.room c),
    (Criteria.format_ c), (Criteria.currency c); apply _.
Defined.

#[global] Instance satisfies_stated_dec (c : Criteria.t) (t : Tournament.t) :
  Decision (satisfies_stated c t).
Proof.
  unfold satisfies_stated, not_before, not_after, text_matches_stated.
  destruct (Criteria.from_date c), (Criteria.to_date c), (Criteria.room c),
    (Criteria.format_ c), (Criteria.currency c); apply _.
Defined.

(** All the characters. *)
Definition all_ascii : list ascii := map ascii_of_nat (seq 0 256).

(** A record that differs from [sample] in its room and format only. *)
Definition sample_in (room format : string) : Tournament.t :=
  Tournament.mk sample_date room "Daily" (PyFloat.of_Z 5) (PyFloat.of_Z 0)
    "USD" (PyFloat.of_Z 0) 0 0 format "".

(** The test made on each record by the loop of [filter_tournaments]: the
    record is appended when no [continue] is taken. *)
Definition passes (from_date to_date : option PyDate.date)
    (room format_ currency : option string) (t : Tournament.t) : bool :=
  negb (before from_date (Tournament.date t))
  && negb (after to_date (Tournament.date t))
  && negb (mismatch_lower room (Tournament.room t))
  && negb (mismatch_lower format_ (Tournament.format t))
  && negb (mismatch_upper currency (Tournament.currency t)).

(** ** Reference definitions for the groupings *)

(** The distinct keys of a list, in the order in which they are first seen. *)
Fixpoint first_seen (ks : list string) : list string :=
  match ks with
  | [] => []
  | k :: r => k :: List.filter (fun k' => negb (String.eqb k' k)) (first_seen r)
  end.

(** The records whose key is [k], in the order of the input. *)
Definition with_key (key : Tournament.t -> string) (k : string)
    (ts : list Tournament.t) : list Tournament.t :=
  List.filter (fun t => String.eqb (key t) k) ts.

(** One group per distinct key, in first-seen order. *)
Definition grouped (key : Tournament.t -> string) (ts : list Tournament.t) : groups :=
  map (fun k => (k, with_key key k ts)) (first_seen (map key ts)).

(** Keys in ascending order, and in strictly ascending order. *)
Definition key_le (x y : string * list Tournament.t) : Prop :=
  String.leb (fst x) (fst y) = true.

Definition key_lt (x y : string * list Tournament.t) : Prop :=
  String.ltb (fst x) (fst y) = true.

(** The time modes that compute a key from the date. *)
Definition known_mode (show_by : string) : bool :=
  String.eqb show_by "day" || String.eqb show_by "week" || String.eqb show_by "month".

(** A record played on the given day. *)
Definition played_on (y m d : Z) : Tournament.t :=
  Tournament.mk (PyDate.mkdate y m d) "PokerOK" "Daily" (PyFloat.of_Z 5)
    (PyFloat.of_Z 0) "USD" (PyFloat.of_Z 0) 0 0 "MTT" "".

(** A record with the given buy-in, written as a fraction [p / q]. *)
Definition bought_for (p q : positive) : Tournament.t :=
  Tournament.mk sample_date "PokerOK" "Daily" (PyFloat.of_ratio false p q)
    (PyFloat.of_Z 0) "USD" (PyFloat.of_Z 0) 0 0 "MTT" "".

(** The key under which [group_by_buyin_range] files a record. *)
Definition buyin_key (t : Tournament.t) : string := buyin_label (Tournament.buy_in t).

(** ** Reference definitions for ingestion *)

(** The text of a column, or [default] for a column the row does not have. *)
Definition text_of (row : gmap string pyval) (key default : string) : string :=
  match row !! key with
  | Some (PyText s) => s
  | _ => default
  end.

(** The date of a row, when its date column parses. *)
Definition date_of (row : gmap string pyval) : option PyDate.date :=
  v ← row !! "date"; parse_date v.

(** The record that a row with date [d] is turned into. *)
Definition record_of (d : PyDate.date) (row : gmap string pyval) : Tournament.t :=
  Tournament.mk d
    (PyStr.strip (text_of row "room" ""))
    (PyStr.strip (text_of row "name" ""))
    (to_float (text_of row "buy_in" "0"))
    (to_float (text_of row "rake" "0"))
    (PyStr.or_else (PyStr.strip (text_of row "currency" "")) "USD")
    (to_float (text_of row "result" "0"))
    (to_int (text_of row "place" "0"))
    (to_int (text_of row "players" "0"))
    (PyStr.strip (text_of row "format" ""))
    (PyStr.strip (text_of row "notes" "")).

(** The invariants of the data model, as stated. *)
Definition invariants_stated (t : Tournament.t) : Prop :=
  PyFloat.geb (Tournament.buy_in t) PyFloat.zero = true
  /\ PyFloat.geb (Tournament.rake t) PyFloat.zero = true
  /\ (0 <= Tournament.players t)%Z
  /\ (0 <= Tournament.place t)%Z
  /\ Tournament.currency t <> ""
  /\ PyStr.upper (Tournament.currency t) = Tournament.currency t.

Definition row_of (cells : list (string * string)) : gmap string pyval :=
  PyText <$> (list_to_map cells : gmap string string).

(** A well-formed line with blank and unparseable cells. *)
Definition sample_row : gmap string pyval :=
  row_of [("date", "2024-01-31"); ("room", " PokerOK "); ("name", "Daily");
          ("buy_in", "4.99"); ("rake", "abc"); ("currency", "  ");
          ("result", ""); ("place", "3"); ("players", "x")].

(** A line with a negative buy-in, a negative place and a lower-case
    currency. *)
Definition negative_row : gmap string pyval :=
  row_of [("date", "2024-01-31"); ("room", "PokerOK"); ("name", "Daily");
          ("buy_in", "-5"); ("rake", "0.5"); ("currency", "usd");
          ("result", "0"); ("place", "-1"); ("players", "100");
          ("format", "MTT"); ("notes", "")].

(** A line whose date is not in the expected format. *)
Definition bad_date_row : gmap string pyval :=
  row_of [("date", "31.01.2024"); ("room", "PokerOK"); ("buy_in", "5")].

(** A line too short to reach the [name] column. *)
Definition short_row : gmap string pyval :=
  <["name" := PyNone]> (row_of [("date", "2024-01-31"); ("room", "PokerOK")]).

(** The record built from [negative_row]. *)
Definition negative_record : Tournament.t :=
  Tournament.mk (PyDate.mkdate 2024 1 31) "PokerOK" "Daily" (PyFloat.of_Z (-5))
    (PyFloat.of_ratio false 1 2) "usd" PyFloat.zero (-1) 100 "MTT" "".

(** ** Loading the ledger *)

(** What [load_tournaments] prints: the warning about the columns the header
    lacks, and the warnings of [from_csv_row]. *)
Inductive message : Type :=
| MissingColumns (columns : list string)
| RowWarning (d : diagnostic).

(** The file as [csv.DictReader] presents it: its header ([None] for a file
    without a first line) and its rows. *)
Record csv_file : Type := mk_csv {
  fieldnames : option (list string);
  rows : list (gmap string pyval)
}.

Inductive load_result : Type :=
| FileNotFound                       (* raised for a path that is no file *)
| HeaderTypeError                    (* [h not in None] on a file without header *)
| Loaded (tournaments : list Tournament.t) (printed : list message).

Definition contains (l : list string) (h : string) : bool :=
  existsb (String.eqb h) l.

(** The loop over the rows: the accumulated records and printed lines. *)
Definition load_rows (rs : list (gmap string pyval)) : list Tournament.t * list message :=
  fold_left
    (fun '(tournaments, printed) row =>
       let '(t, out) := from_csv_row row in
       let printed := printed ++ map RowWarning out in
       match t with
       | Some x => (tournaments ++ [x], printed)
       | None => (tournaments, printed)
       end)
    rs ([], []).

(** [load_tournaments], on the file found at the path, if any. *)
Definition load_tournaments (file : option csv_file) : load_result :=
  match file with
  | None => FileNotFound
  | Some f =>
      match fieldnames f with
      | None => HeaderTypeError
      | Some names =>
          let missing := List.filter (fun h => negb (contains names h)) CSV_HEADERS in
          let warning := if PyParse.is_nil missing then [] else [MissingColumns missing] in
          let '(tournaments, printed) := load_rows (rows f) in
          Loaded tournaments (warning ++ printed)
      end
  end.

Definition is_row_warning (m : message) : bool :=
  match m with RowWarning _ => true | MissingColumns _ => false end.

(** ** The read path shared by [summary], [graph] and [details] *)

(** [parse_date(s) if s else None]; the outer [None] is the [ValueError] of
    a text that is no date. *)
Definition parse_bound (s : option string) : option (option PyDate.date) :=
  match s with
  | Some text =>
      if PyStr.truthy text
      then d ← PyDate.strptime_Ymd text; Some (Some d)
      else Some None
  | None => Some None
  end.

(** [tournaments.sort(key=lambda t: t.date)]: a stable sort on the dates; by
    insertion, a record going in front of the first record that is not
    earlier. *)
Fixpoint insert_by_date (x : Tournament.t) (l : list Tournament.t) : list Tournament.t :=
  match l with
  | [] => [x]
  | y :: r =>
      if PyDate.ltb (Tournament.date y) (Tournament.date x)
      then y :: insert_by_date x r
      else x :: y :: r
  end.

Definition sort_by_date (l : list Tournament.t) : list Tournament.t :=
  fold_right insert_by_date [] l.

(** ** The series of [graph] *)

(** The loop that accumulates the profits: both branches of its [if] add
    the profit of the record. *)
Definition cumulative_loop (metric : string) (cumulative : spec_float)
    (tournaments : list Tournament.t) : list PyDate.date * list spec_float :=
  snd
    (fold_left
       (fun '(cumulative, (x_dates, y_values)) t =>
          let tournament_profit := Tournament.profit t in
          let cumulative :=
            if String.eqb metric "profit"
            then PyFloat.add cumulative tournament_profit
            else PyFloat.add cumulative tournament_profit in
          (cumulative, (x_dates ++ [Tournament.date t], y_values ++ [cumulative])))
       tournaments (cumulative, ([], []))).

Inductive graph_outcome : Type :=
| GraphNothingFound
| GraphBadMetric
| GraphNeedsStart
| GraphPlot (x_dates : list PyDate.date) (y_values : list spec_float).

(** [handle_graph] from the filtered records to the two lists handed to the
    plot. *)
Definition graph_series (metric : string) (start_bankroll : option spec_float)
    (tournaments : list Tournament.t) : graph_outcome :=
  if PyParse.is_nil tournaments then GraphNothingFound
  else
    let tournaments := sort_by_date tournaments in
    if negb (String.eqb metric "profit" || String.eqb metric "bankroll") then GraphBadMetric
    else if String.eqb metric "bankroll" then
      match start_bankroll with
      | None => GraphNeedsStart
      | Some b =>
          let '(x, y) := cumulative_loop metric b tournaments in GraphPlot x y
      end
    else
      let '(x, y) := cumulative_loop metric PyFloat.zero tournaments in GraphPlot x y.

(** The running sums of a list of floats from a starting value. *)
Fixpoint running_sums (start : spec_float) (xs : list spec_float) : list spec_float :=
  match xs with
  | [] => []
  | x :: r => PyFloat.add start x :: running_sums (PyFloat.add start x) r
  end.

(** ** The rows of [details] *)

(** [l[:n]] for a positive [n]. *)
Definition slice_to (n : Z) (l : list Tournament.t) : list Tournament.t :=
  firstn (Z.to_nat n) l.

(** [handle_details] from the filtered records to the records listed;
    [None] when there is nothing to list. *)
Definition details_rows (limit : option Z) (tournaments : list Tournament.t)
    : option (list Tournament.t) :=
  if PyParse.is_nil tournaments then None
  else
    let tournaments := sort_by_date tournaments in
    match limit with
    | Some n => if (0 <? n)%Z then Some (slice_to n tournaments) else Some tournaments
    | None => Some tournaments
    end.

(** ** The record of [add] *)

Module AddArgs.

(** The options of the [add] command; only [name] is required. *)
Record t : Type := mk {
  date : option string;
  room : option string;
  name : string;
  buy_in : option string;
  rake : option string;
  currency : option string;
  result : option string;
  place : option string;
  players : option string;
  format : option string;
  notes : option string
}.

End AddArgs.

(** [v or default] for an optional text. *)
Definition opt_or (v : option string) (default : string) : string :=
  match v with
  | Some s => PyStr.or_else s default
  | None => default
  end.

Definition f_or_default (v : option string) (default : spec_float) : spec_float :=
  match v with
  | None => default
  | Some s =>
      match PyParse.py_float s with
      | Some x => x
      | None => default
      end
  end.

Definition i_or_default (v : option string) (default : Z) : Z :=
  match v with
  | None => default
  | Some s =>
      match PyParse.py_int s with
      | Some n => n
      | None => default
      end
  end.

(** The date of the new record: the parsed option, today without the
    option, [None] (an error message) for an option that is no date. *)
Definition add_date (date : option string) (today : PyDate.date) : option PyDate.date :=
  match date with
  | Some s => if PyStr.truthy s then PyDate.strptime_Ymd s else Some today
  | None => Some today
  end.

(** The record that [handle_add] appends to the ledger, if any. *)
Definition added_record (args : AddArgs.t) (today : PyDate.date) : option Tournament.t :=
  d ← add_date (AddArgs.date args) today;
  Some (Tournament.mk d
          (opt_or (AddArgs.room args) "PokerOK")
          (AddArgs.name args)
          (f_or_default (AddArgs.buy_in args) PyFloat.zero)
          (f_or_default (AddArgs.rake args) PyFloat.zero)
          (PyStr.upper (opt_or (AddArgs.currency args) "USD"))
          (f_or_default (AddArgs.result args) PyFloat.zero)
          (i_or_default (AddArgs.place args) 0)
          (i_or_default (AddArgs.players args) 0)
          (opt_or (AddArgs.format args) "MTT")
          (opt_or (AddArgs.notes args) "")).

(** ** The tables of [summary] *)

(** [calc_summary_stats] on every group, in the order of the groups. *)
Fixpoint stats_of_groups (g : groups) : option (list (string * Stats.t)) :=
  match g with
  | [] => Some []
  | (k, ts) :: rest =>
      st ← calc_summary_stats ts;
      r ← stats_of_groups rest;
      Some ((k, st) :: r)
  end.

(** The loop over the buy-in buckets skips the empty ones. *)
Definition shown_buckets (g : groups) : groups :=
  List.filter (fun kv => negb (PyParse.is_nil (snd kv))) g.

Module Summary.

(** The figures printed by [summary]: the overall line and the three
    tables (the table by time is empty without [--show-by]). *)
Record t : Type := mk {
  overall : Stats.t;
  by_format : list (string * Stats.t);
  by_buyin : list (string * Stats.t);
  by_time : list (string * Stats.t)
}.

End Summary.

Inductive summary_outcome : Type :=
| SummaryNothingFound
| SummaryRaised                      (* an exception escaping [calc_summary_stats] *)
| SummaryReport (r : Summary.t).

(** [handle_summary] from the filtered records to the figures printed. *)
Definition summary_tables (show_by : string) (tournaments : list Tournament.t)
    : summary_outcome :=
  if PyParse.is_nil tournaments then SummaryNothingFound
  else
    match
      overall ← calc_summary_stats tournaments;
      fmt ← stats_of_groups (group_by_format tournaments);
      bi ← stats_of_groups (shown_buckets (group_by_buyin_range tournaments));
      tm ← (if negb (String.eqb show_by "none")
            then stats_of_groups (group_by_time tournaments show_by)
            else Some []);
      Some (Summary.mk overall fmt bi tm)
    with
    | Some r => SummaryReport r
    | None => SummaryRaised
    end.

(** Sum of the counts, and of the ITM counts, of a table. *)
Definition table_total (l : list (string * Stats.t)) : Z :=
  fold_right Z.add 0%Z (map (fun kv => Stats.total (snd kv)) l).

Definition table_itm (l : list (string * Stats.t)) : Z :=
  fold_right Z.add 0%Z (map (fun kv => Stats.total_itm (snd kv)) l).

(** ** Reference definitions for the added properties *)

(** The statistics of a list, as the nine expressions of
    [calc_summary_stats]. *)
Definition stats_value (ts : list Tournament.t) : Stats.t :=
  let buy := py_sum_float (map Tournament.buy_in ts) in
  let rk := py_sum_float (map Tournament.rake ts) in
  let res := py_sum_float (map Tournament.result ts) in
  let cost := PyFloat.add buy rk in
  let prof := PyFloat.sub res cost in
  Stats.mk (Z.of_nat (List.length ts)) (itm_count ts) buy rk cost res prof
    (itm_percent (itm_count ts) (Z.of_nat (List.length ts)))
    (roi_percent prof cost).

(** Records in ascending order of date. *)
Definition date_sorted (l : list Tournament.t) : Prop :=
  StronglySorted (fun a b => date_le (Tournament.date a) (Tournament.date b)) l.

Definition same_date (d : PyDate.date) (t : Tournament.t) : bool :=
  match PyDate.compare (Tournament.date t) d with Eq => true | _ => false end.

(** A row with every cell stripped of its surrounding white space. *)
Definition stripped_cell (v : pyval) : pyval :=
  match v with
  | PyText s => PyText (PyStr.strip s)
  | PyNone => PyNone
  end.

(** An [add] command line with a date, odd spacing and a lower-case
    currency. *)
Definition sample_add : AddArgs.t :=
  AddArgs.mk (Some "2024-02-29") None "Sunday Special" (Some " 11 ") (Some "x")
    (Some "eur") None (Some "3") None (Some "") None.

(** The check that [str y] is four digits that read back as [y]. *)
Definition year_text_ok (y : Z) : bool :=
  match PyInt.str y with
  | String a (String b (String c (String e EmptyString))) =>
      forallb PyStr.is_digit [a; b; c; e]
      && (PyInt.value_of_digits [a; b; c; e] =? y)%Z
  | _ => false
  end.

(** The check that [str y] is one to three digits. *)
Definition short_year_ok (y : Z) : bool :=
  match list_ascii_of_string (PyInt.str y) with
  | [a] => PyStr.is_digit a
  | [a; b] => PyStr.is_digit a && PyStr.is_digit b
  | [a; b; c] => PyStr.is_digit a && PyStr.is_digit b && PyStr.is_digit c
  | _ => false
  end.

(** The years, months and days of the calendar. *)
Definition Z_range (lo n : Z) : list Z := map Z.of_nat (seq (Z.to_nat lo) (Z.to_nat n)).

Definition all_years : list Z := Z_range 1000 9000.
Definition early_years : list Z := Z_range 1 999.
Definition all_months : list Z := Z_range 1 12.
Definition all_days : list Z := Z_range 1 31.

#[global] Instance date_eq_dec : EqDecision PyDate.date.
Proof. solve_decision. Defined.

(** The sum of an integer weight over a list of records, and over the
    groups of a dictionary. *)
Definition weight_sum (f : Tournament.t -> Z) (l : list Tournament.t) : Z :=
  fold_right Z.add 0%Z (map f l).

Definition groups_weight (f : Tournament.t -> Z) (g : groups) : Z :=
  fold_right Z.add 0%Z (map (fun kv => weight_sum f (snd kv)) g).

Definition one (t : Tournament.t) : Z := 1%Z.

Definition itm_one (t : Tournament.t) : Z :=
  if PyFloat.gtb (Tournament.result t) PyFloat.zero then 1%Z else 0%Z.

(** The table of a dictionary: each key with the statistics of its list. *)
Definition table_of (g : groups) : list (string * Stats.t) :=
  map (fun kv => (fst kv, stats_value (snd kv))) g.

(** A column that is missing or holds text. *)
Definition has_text (row : gmap string pyval) (key : string) : bool :=
  match row !! key with
  | Some PyNone => false
  | _ => true
  end.

(** The ten columns read by the second block of [from_csv_row]. *)
Definition record_columns : list string :=
  ["room"; "name"; "buy_in"; "rake"; "currency"; "result"; "place"; "players";
   "format"; "notes"].

(** Reading decimal digits into an accumulator. *)
Definition read_digits (v0 : Z) (cs : list ascii) : Z :=
  fold_left (fun acc c => (10 * acc + PyInt.digit_val c)%Z) cs v0.

(** A character that no [strip] removes and that is no underscore. *)
Definition solid (c : ascii) : bool :=
  negb (PyStr.is_space c) && negb (PyParse.is_cspace c) && negb (PyParse.is_underscore c).

(** What holds of every digit character. *)
Definition digit_facts (c : ascii) : bool :=
  implb (PyStr.is_digit c)
    (solid c && negb (Ascii.eqb c "-") && negb (Ascii.eqb c "+")).

(** * Properties *)

(** ** Sanity checks of the runtime layer *)

Example strip_example : PyStr.strip "  usd	 " = "usd".
Proof. reflexivity. Qed.

Example lower_example : PyStr.lower "PokerOK-1" = "pokerok-1".
Proof. reflexivity. Qed.

Example of_ratio_example :
  PyFloat.of_ratio false 1 2 = S754_finite false 4503599627370496 (-53).
Proof. vm_compute. reflexivity. Qed.

Example str_example : PyInt.str 2024 = "2024" /\ PyInt.str (-7) = "-7" /\ PyInt.str 0 = "0".
Proof. repeat split; reflexivity. Qed.

Example zfill_example : PyInt.zfill 2 1 = "01" /\ PyInt.zfill 2 53 = "53" /\ PyInt.zfill 4 999 = "0999".
Proof. repeat split; reflexivity. Qed.

Example strptime_examples :
  PyDate.strptime_Ymd "2024-01-31" = Some (PyDate.mkdate 2024 1 31)
  /\ PyDate.strptime_Ymd "2024-1-5" = Some (PyDate.mkdate 2024 1 5)
  /\ PyDate.strptime_Ymd "2023-02-29" = None
  /\ PyDate.strptime_Ymd "2024-02-29" = Some (PyDate.mkdate 2024 2 29)
  /\ PyDate.strptime_Ymd "31.01.2024" = None
  /\ PyDate.strptime_Ymd "2024-01-311" = None
  /\ PyDate.strptime_Ymd "0000-01-01" = None
  /\ PyDate.strptime_Ymd "" = None.
Proof. repeat split; reflexivity. Qed.

Example isocalendar_examples :
  PyDate.isocalendar (PyDate.mkdate 2024 1 1) = (2024, 1, 1)%Z
  /\ PyDate.isocalendar (PyDate.mkdate 2021 1 3) = (2020, 53, 7)%Z
  /\ PyDate.isocalendar (PyDate.mkdate 2024 12 30) = (2025, 1, 1)%Z
  /\ PyDate.isocalendar (PyDate.mkdate 2023 1 1) = (2022, 52, 7)%Z
  /\ PyDate.toordinal (PyDate.mkdate 2024 1 1) = 738886%Z.
Proof. repeat split; reflexivity. Qed.

Example py_int_examples :
  PyParse.py_int "42" = Some 42%Z /\ PyParse.py_int "-7" = Some (-7)%Z
  /\ PyParse.py_int "1_000" = Some 1000%Z /\ PyParse.py_int "007" = Some 7%Z
  /\ PyParse.py_int "" = None /\ PyParse.py_int "1__0" = None
  /\ PyParse.py_int "12a" = None /\ PyParse.py_int "3.5" = None
  /\ PyParse.py_int "+" = None /\ PyParse.py_int "_1" = None.
Proof. repeat split; reflexivity. Qed.

Example py_int_limit :
  PyParse.py_int (PyInt.zeros (Z.to_nat 4300)) = Some 0%Z
  /\ PyParse.py_int (PyInt.zeros (Z.to_nat 4301)) = None
  /\ PyParse.py_int (String "-" (PyInt.zeros (Z.to_nat 4300))) = Some 0%Z.
Proof. repeat split; vm_compute; reflexivity. Qed.

Example py_float_examples :
  PyParse.py_float "5" = Some (PyFloat.of_Z 5)
  /\ PyParse.py_float "5.00" = Some (PyFloat.of_Z 5)
  /\ PyParse.py_float "-5" = Some (PyFloat.of_Z (-5))
  /\ PyParse.py_float "1e2" = Some (PyFloat.of_Z 100)
  /\ PyParse.py_float "2.5E-1" = Some (PyFloat.of_ratio false 1 4)
  /\ PyParse.py_float "4.99" = Some (S754_finite false 5618240535144694 (-50))
  /\ PyParse.py_float "0.1" = Some (S754_finite false 7205759403792794 (-56))
  /\ PyParse.py_float "-0" = Some (S754_zero true)
  /\ PyParse.py_float "nan" = Some S754_nan
  /\ PyParse.py_float "-Infinity" = Some (S754_infinity true)
  /\ PyParse.py_float "1e999" = Some (S754_infinity false)
  /\ PyParse.py_float "." = None /\ PyParse.py_float "1e" = None
  /\ PyParse.py_float "abc" = None /\ PyParse.py_float "1_.5" = None
  /\ PyParse.py_float "1,5" = None.
Proof. repeat split; vm_compute; reflexivity. Qed.

(** ** Aggregation *)

Lemma py_sum_int_ones {A} (l : list A) (a : Z) :
  fold_left Z.add (map (fun _ => 1%Z) l) a = (a + Z.of_nat (List.length l))%Z.
Proof.
  revert a. induction l as [|x l IH]; intros a; simpl.
  - lia.
  - rewrite IH. lia.
Qed.

Lemma gtb_zero_not_zero (x : spec_float) :
  PyFloat.gtb x PyFloat.zero = true -> PyFloat.is_zero x = false.
Proof. destruct x as [s|s| |s m e]; simpl; try reflexivity. discriminate. Qed.

(** The function never takes the exceptional path, and its result is the
    record of the nine expressions of the source. *)
Lemma calc_summary_stats_eq (ts : list Tournament.t) :
  let buy := py_sum_float (map Tournament.buy_in ts) in
  let rk := py_sum_float (map Tournament.rake ts) in
  let res := py_sum_float (map Tournament.result ts) in
  let cost := PyFloat.add buy rk in
  let prof := PyFloat.sub res cost in
  calc_summary_stats ts =
    Some (Stats.mk (Z.of_nat (List.length ts)) (itm_count ts) buy rk cost res prof
            (itm_percent (itm_count ts) (Z.of_nat (List.length ts)))
            (roi_percent prof cost)).
Proof.
  intros buy rk res cost prof.
  unfold calc_summary_stats.
  fold buy rk res. fold cost. fold prof.
  assert (Hitm : py_sum_int (map (fun _ => 1%Z) (List.filter Tournament.is_itm ts)) = itm_count ts).
  { unfold py_sum_int, itm_count. rewrite py_sum_int_ones. reflexivity. }
  rewrite Hitm.
  unfold itm_percent, roi_percent, PyFloat.int_truediv, PyFloat.truediv.
  destruct (Z.of_nat (List.length ts) =? 0)%Z eqn:Hn.
  - apply Z.eqb_eq in Hn. rewrite Hn. simpl.
    destruct (PyFloat.gtb cost PyFloat.zero) eqn:Hc; simpl.
    + rewrite (gtb_zero_not_zero _ Hc). reflexivity.
    + reflexivity.
  - apply Z.eqb_neq in Hn.
    assert (Hpos : (0 <? Z.of_nat (List.length ts))%Z = true) by (apply Z.ltb_lt; lia).
    rewrite Hpos. simpl.
    destruct (PyFloat.gtb cost PyFloat.zero) eqn:Hc; simpl.
    + rewrite (gtb_zero_not_zero _ Hc). reflexivity.
    + reflexivity.
Qed.

(** C1 (as amended): for every list of records [calc_summary_stats] returns
    statistics whose count is the number of records, whose ITM count is the
    number of records with a positive result, whose three totals are the sums
    (accumulated left to right) of the buy-ins, rakes and results, whose total
    cost is total buy-in plus total rake and whose profit is total result
    minus total cost.  On the two records of scenario C this gives count 2,
    ITM count 1, ITM rate 50, total cost 10, profit 10 and ROI 100. *)
Theorem C1_summary_fields :
  (forall ts : list Tournament.t,
     exists st,
       calc_summary_stats ts = Some st
       /\ Stats.total st = Z.of_nat (List.length ts)
       /\ Stats.total_itm st = itm_count ts
       /\ Stats.total_buy_in st = py_sum_float (map Tournament.buy_in ts)
       /\ Stats.total_rake st = py_sum_float (map Tournament.rake ts)
       /\ Stats.total_cost st = PyFloat.add (Stats.total_buy_in st) (Stats.total_rake st)
       /\ Stats.total_result st = py_sum_float (map Tournament.result ts)
       /\ Stats.profit st = PyFloat.sub (Stats.total_result st) (Stats.total_cost st))
  /\ calc_summary_stats scenario_C =
       Some (Stats.mk 2 1 (PyFloat.of_Z 10) PyFloat.zero (PyFloat.of_Z 10)
               (PyFloat.of_Z 20) (PyFloat.of_Z 10) (PyFloat.of_Z 50) (PyFloat.of_Z 100)).
Proof.
  split.
  - intros ts. eexists. split; [apply calc_summary_stats_eq|].
    simpl. repeat split; reflexivity.
  - vm_compute. reflexivity.
Qed.

(** C1, the figures of scenario C as the claim gives them: no result of
    [calc_summary_stats] on the two records has profit 15 and ROI 150. *)
Lemma C1_scenario_C_not_15_150 :
  ~ (exists st,
       calc_summary_stats scenario_C = Some st
       /\ Stats.total st = 2%Z
       /\ Stats.total_itm st = 1%Z
       /\ Stats.itm_pct st = PyFloat.of_Z 50
       /\ Stats.total_cost st = PyFloat.of_Z 10
       /\ Stats.profit st = PyFloat.of_Z 15
       /\ Stats.roi_pct st = PyFloat.of_Z 150).
Proof.
  intros (st & Hst & _ & _ & _ & _ & Hprofit & _).
  vm_compute in Hst. injection Hst as <-.
  vm_compute in Hprofit. discriminate Hprofit.
Qed.

(** C5: [calc_summary_stats] never divides by zero, that is, it returns
    statistics for every list of records.  The ITM rate is ITM count / count
    * 100 when the count is positive and 0 otherwise; the ROI is profit /
    total cost * 100 when the total cost is positive and 0 otherwise.  The
    empty list gives statistics that are zero throughout, and the ROI is 0
    whenever the total cost is a zero, whatever the count. *)
Theorem C5_percentages_guarded :
  forall ts : list Tournament.t,
    exists st,
      calc_summary_stats ts = Some st
      /\ Stats.itm_pct st =
           (if (0 <? Stats.total st)%Z
            then PyFloat.mul (PyFloat.int_quotient (Stats.total_itm st) (Stats.total st)) hundred
            else PyFloat.zero)
      /\ Stats.roi_pct st =
           (if PyFloat.gtb (Stats.total_cost st) PyFloat.zero
            then PyFloat.mul (PyFloat.div (Stats.profit st) (Stats.total_cost st)) hundred
            else PyFloat.zero)
      /\ (ts = [] -> st = zero_stats)
      /\ (PyFloat.is_zero (Stats.total_cost st) = true -> Stats.roi_pct st = PyFloat.zero).
Proof.
  intros ts. eexists. split; [apply calc_summary_stats_eq|].
  simpl. repeat split.
  - intros ->. vm_compute. reflexivity.
  - intros Hz. unfold roi_percent.
    destruct (PyFloat.gtb _ PyFloat.zero) eqn:Hc; [|reflexivity].
    apply gtb_zero_not_zero in Hc. congruence.
Qed.

(** ** Strings up to case *)

Lemma in_all_ascii (a : ascii) : In a all_ascii.
Proof.
  unfold all_ascii. apply in_map_iff. exists (nat_of_ascii a). split.
  - apply ascii_nat_embedding.
  - apply in_seq. pose proof (nat_ascii_bounded a). lia.
Qed.

Lemma ascii_forall2 (P : ascii -> ascii -> bool) :
  forallb (fun a => forallb (P a) all_ascii) all_ascii = true ->
  forall a b, P a b = true.
Proof.
  intros H a b. rewrite forallb_forall in H.
  specialize (H a (in_all_ascii a)). rewrite forallb_forall in H.
  apply H, in_all_ascii.
Qed.

Lemma lower_char_same (a b : ascii) :
  PyStr.lower_char a = PyStr.lower_char b <-> same_letter a b.
Proof.
  pose proof (ascii_forall2
    (fun a b => Bool.eqb (bool_decide (PyStr.lower_char a = PyStr.lower_char b))
                         (bool_decide (same_letter a b)))) as H.
  assert (Hall : forall a b,
    Bool.eqb (bool_decide (PyStr.lower_char a = PyStr.lower_char b))
             (bool_decide (same_letter a b)) = true).
  { apply H. vm_compute. reflexivity. }
  specialize (Hall a b). apply eqb_prop in Hall.
  rewrite <- (bool_decide_eq_true (PyStr.lower_char a = PyStr.lower_char b)).
  rewrite <- (bool_decide_eq_true (same_letter a b)).
  rewrite Hall. reflexivity.
Qed.

Lemma upper_char_same (a b : ascii) :
  PyStr.upper_char a = PyStr.upper_char b <-> same_letter a b.
Proof.
  pose proof (ascii_forall2
    (fun a b => Bool.eqb (bool_decide (PyStr.upper_char a = PyStr.upper_char b))
                         (bool_decide (same_letter a b)))) as H.
  assert (Hall : forall a b,
    Bool.eqb (bool_decide (PyStr.upper_char a = PyStr.upper_char b))
             (bool_decide (same_letter a b)) = true).
  { apply H. vm_compute. reflexivity. }
  specialize (Hall a b). apply eqb_prop in Hall.
  rewrite <- (bool_decide_eq_true (PyStr.upper_char a = PyStr.upper_char b)).
  rewrite <- (bool_decide_eq_true (same_letter a b)).
  rewrite Hall. reflexivity.
Qed.

Lemma lower_eq_nocase (x y : string) :
  PyStr.lower x = PyStr.lower y <-> eq_nocase x y.
Proof.
  revert y. induction x as [|a r IH]; intros [|b s]; simpl; try (split; [discriminate|tauto]).
  - tauto.
  - rewrite <- IH, <- lower_char_same. split.
    + intros E. injection E. tauto.
    + intros [-> ->]. reflexivity.
Qed.

Lemma upper_eq_nocase (x y : string) :
  PyStr.upper x = PyStr.upper y <-> eq_nocase x y.
Proof.
  revert y. induction x as [|a r IH]; intros [|b s]; simpl; try (split; [discriminate|tauto]).
  - tauto.
  - rewrite <- IH, <- upper_char_same. split.
    + intros E. injection E. tauto.
    + intros [-> ->]. reflexivity.
Qed.

Lemma truthy_false (s : string) : PyStr.truthy s = false <-> s = "".
Proof. destruct s; simpl; split; congruence. Qed.

Lemma mismatch_lower_spec (crit : option string) (field : string) :
  mismatch_lower crit field = false <-> criterion_met PyStr.lower crit field.
Proof.
  destruct crit as [c|]; simpl; [|tauto].
  rewrite andb_false_iff, negb_false_iff, truthy_false, String.eqb_eq.
  reflexivity.
Qed.

Lemma mismatch_upper_spec (crit : option string) (field : string) :
  mismatch_upper crit field = false <-> criterion_met PyStr.upper crit field.
Proof.
  destruct crit as [c|]; simpl; [|tauto].
  rewrite andb_false_iff, negb_false_iff, truthy_false, String.eqb_eq.
  reflexivity.
Qed.

(** ** Dates *)

Lemma date_ltb_false (d b : PyDate.date) : PyDate.ltb d b = false <-> date_le b d.
Proof.
  unfold PyDate.ltb, PyDate.compare, date_le.
  destruct (Z.compare_spec (PyDate.year d) (PyDate.year b));
    [destruct (Z.compare_spec (PyDate.month d) (PyDate.month b));
       [destruct (Z.compare_spec (PyDate.day d) (PyDate.day b))| |]| |];
    split; intros; try discriminate; try reflexivity; try lia.
Qed.

Lemma date_gtb_false (d b : PyDate.date) : PyDate.gtb d b = false <-> date_le d b.
Proof.
  unfold PyDate.gtb, PyDate.compare, date_le.
  destruct (Z.compare_spec (PyDate.year d) (PyDate.year b));
    [destruct (Z.compare_spec (PyDate.month d) (PyDate.month b));
       [destruct (Z.compare_spec (PyDate.day d) (PyDate.day b))| |]| |];
    split; intros; try discriminate; try reflexivity; try lia.
Qed.

Lemma before_spec (bound : option PyDate.date) (d : PyDate.date) :
  before bound d = false <-> not_before bound d.
Proof. destruct bound; simpl; [apply date_ltb_false | tauto]. Qed.

Lemma after_spec (bound : option PyDate.date) (d : PyDate.date) :
  after bound d = false <-> not_after bound d.
Proof. destruct bound; simpl; [apply date_gtb_false | tauto]. Qed.

(** ** Filter *)

Lemma filter_loop (f t : option PyDate.date) (r fm c : option string)
    (ts acc : list Tournament.t) :
  fold_left
    (fun result x =>
       if before f (Tournament.date x) then result
       else if after t (Tournament.date x) then result
       else if mismatch_lower r (Tournament.room x) then result
       else if mismatch_lower fm (Tournament.format x) then result
       else if mismatch_upper c (Tournament.currency x) then result
       else result ++ [x])
    ts acc
  = acc ++ List.filter (passes f t r fm c) ts.
Proof.
  revert acc. induction ts as [|x ts IH]; intros acc; simpl.
  - now rewrite app_nil_r.
  - rewrite IH. unfold passes.
    destruct (before f _); simpl; [reflexivity|].
    destruct (after t _); simpl; [reflexivity|].
    destruct (mismatch_lower r _); simpl; [reflexivity|].
    destruct (mismatch_lower fm _); simpl; [reflexivity|].
    destruct (mismatch_upper c _); simpl; [reflexivity|].
    now rewrite <- app_assoc.
Qed.

Lemma filter_tournaments_filter (ts : list Tournament.t)
    (f t : option PyDate.date) (r fm c : option string) :
  filter_tournaments ts f t r fm c = List.filter (passes f t r fm c) ts.
Proof. unfold filter_tournaments. now rewrite filter_loop. Qed.

Lemma passes_selected (c : Criteria.t) (x : Tournament.t) :
  passes (Criteria.from_date c) (Criteria.to_date c) (Criteria.room c)
    (Criteria.format_ c) (Criteria.currency c) x = true
  <-> selected c x.
Proof.
  unfold passes, selected.
  rewrite !andb_true_iff, !negb_true_iff.
  rewrite before_spec, after_spec, !mismatch_lower_spec, mismatch_upper_spec.
  tauto.
Qed.

Lemma filter_idem {A} (p : A -> bool) (l : list A) :
  List.filter p (List.filter p l) = List.filter p l.
Proof.
  induction l as [|x l IH]; simpl; [reflexivity|].
  destruct (p x) eqn:E; simpl; [rewrite E|]; now rewrite ?IH.
Qed.

Lemma filter_sublist {A} (p : A -> bool) (l : list A) : sublist (List.filter p l) l.
Proof.
  induction l as [|x l IH]; simpl; [constructor|].
  destruct (p x); now constructor.
Qed.

Lemma passes_bool_decide (f t : option PyDate.date) (r fm c : option string)
    (x : Tournament.t) :
  passes f t r fm c x = bool_decide (selected (Criteria.mk f t r fm c) x).
Proof.
  pose proof (passes_selected (Criteria.mk f t r fm c) x) as H. simpl in H.
  destruct (passes f t r fm c x) eqn:E; symmetry.
  - apply bool_decide_eq_true, H. reflexivity.
  - apply bool_decide_eq_false. intros S. apply H in S. discriminate.
Qed.

(** C2 (as amended): for every list of records and every combination of
    the optional criteria, [filter_tournaments] returns exactly the records
    that meet all of them, in the order of the input: date not before
    [from_date], date not after [to_date], room and format equal to the
    criterion once both are put in lower case, currency equal to the
    criterion once both are put in upper case; a criterion that is absent or
    is the empty string constrains nothing.  On ASCII text, being equal once
    folded, either way, is being equal up to the case of the letters. *)
Theorem C2_filter_selects :
  forall (ts : list Tournament.t) (f t : option PyDate.date) (r fm c : option string),
    let crit := Criteria.mk f t r fm c in
    filter_tournaments ts f t r fm c
      = List.filter (fun x => bool_decide (selected crit x)) ts
    /\ (forall x, In x (filter_tournaments ts f t r fm c) <-> In x ts /\ selected crit x)
    /\ sublist (filter_tournaments ts f t r fm c) ts
    /\ (forall a b : string,
          is_ascii a = true -> is_ascii b = true ->
          (PyStr.lower a = PyStr.lower b <-> eq_nocase a b)
          /\ (PyStr.upper a = PyStr.upper b <-> eq_nocase a b)).
Proof.
  intros ts f t r fm c crit.
  assert (E : filter_tournaments ts f t r fm c
              = List.filter (fun x => bool_decide (selected crit x)) ts).
  { rewrite filter_tournaments_filter. apply filter_ext.
    intros x. apply passes_bool_decide. }
  split; [exact E|]. rewrite E. split; [|split].
  - intros x. rewrite filter_In, bool_decide_eq_true. reflexivity.
  - apply filter_sublist.
  - intros a b _ _. split; [apply lower_eq_nocase | apply upper_eq_nocase].
Qed.

(** C2, read literally: with the room criterion supplied as the empty
    string, a record whose room is "PokerOK" is returned although its room
    does not equal the criterion. *)
Lemma C2_empty_criterion_not_applied :
  ~ (forall x,
       In x (filter_tournaments [sample_in "PokerOK" "MTT"] None None (Some "") None None)
       <-> In x [sample_in "PokerOK" "MTT"]
           /\ satisfies_stated (Criteria.mk None None (Some "") None None) x).
Proof.
  intros H.
  destruct (H (sample_in "PokerOK" "MTT")) as [H1 _].
  assert (Hin : In (sample_in "PokerOK" "MTT")
                  (filter_tournaments [sample_in "PokerOK" "MTT"] None None (Some "") None None)).
  { vm_compute. left. reflexivity. }
  destruct (H1 Hin) as (_ & _ & _ & Hroom & _).
  exact Hroom.
Qed.

(** C8: filtering twice with the same parameters is filtering once. *)
Theorem C8_filter_idempotent :
  forall (ts : list Tournament.t) (f t : option PyDate.date) (r fm c : option string),
    filter_tournaments (filter_tournaments ts f t r fm c) f t r fm c
    = filter_tournaments ts f t r fm c.
Proof.
  intros. rewrite !filter_tournaments_filter. apply filter_idem.
Qed.

Lemma lower_empty (s : string) : PyStr.lower s = "" -> s = "".
Proof. destruct s; simpl; [reflexivity | discriminate]. Qed.

Lemma filter_all_true {A} (p : A -> bool) (l : list A) :
  (forall x, p x = true) -> List.filter p l = l.
Proof.
  intros H. induction l as [|x l IH]; simpl; [reflexivity|].
  now rewrite H, IH.
Qed.

(** C10: a criterion supplied as the empty string behaves exactly like an
    absent one, for the room, the format and the currency; alone it returns
    every record.  A record whose room is empty is returned under a supplied
    room criterion only when that criterion is the empty string, that is,
    when it selects nothing. *)
Theorem C10_empty_criterion_is_absent :
  forall (ts : list Tournament.t) (f t : option PyDate.date) (r fm c : option string),
    filter_tournaments ts f t (Some "") fm c = filter_tournaments ts f t None fm c
    /\ filter_tournaments ts f t r (Some "") c = filter_tournaments ts f t r None c
    /\ filter_tournaments ts f t r fm (Some "") = filter_tournaments ts f t r fm None
    /\ filter_tournaments ts None None (Some "") None None = ts
    /\ filter_tournaments ts None None None (Some "") None = ts
    /\ filter_tournaments ts None None None None (Some "") = ts
    /\ (forall (x : Tournament.t) (crit : string),
          Tournament.room x = "" ->
          In x (filter_tournaments ts f t (Some crit) fm c) ->
          crit = "").
Proof.
  intros ts f t r fm c.
  repeat split; try reflexivity;
    try (rewrite filter_tournaments_filter; apply filter_all_true; intros x; reflexivity).
  intros x crit Hroom Hin.
  rewrite filter_tournaments_filter in Hin. apply filter_In in Hin as [_ Hp].
  unfold passes in Hp. rewrite !andb_true_iff, !negb_true_iff in Hp.
  destruct Hp as ((((_ & _) & Hm) & _) & _).
  rewrite Hroom in Hm. unfold mismatch_lower in Hm.
  apply andb_false_iff in Hm as [Hm|Hm].
  - now apply truthy_false.
  - apply negb_false_iff, String.eqb_eq in Hm. symmetry in Hm. now apply lower_empty.
Qed.

(** ** Dictionaries of lists *)

Lemma first_seen_In (l : list string) (k : string) : In k (first_seen l) <-> In k l.
Proof.
  induction l as [|a l IH]; simpl; [tauto|].
  rewrite filter_In, IH, negb_true_iff, String.eqb_neq.
  destruct (string_dec a k) as [->|Hne]; [tauto|].
  split; [tauto|]. intros [H|H]; [tauto|]. right. split; [exact H|congruence].
Qed.

Lemma NoDup_filter' {A} (p : A -> bool) (l : list A) : List.NoDup l -> List.NoDup (List.filter p l).
Proof.
  induction 1 as [|x l Hx Hl IH]; simpl; [constructor|].
  destruct (p x); [|exact IH].
  constructor; [|exact IH]. rewrite filter_In. tauto.
Qed.

Lemma first_seen_NoDup (l : list string) : List.NoDup (first_seen l).
Proof.
  induction l as [|a l IH]; simpl; constructor.
  - rewrite filter_In, negb_true_iff, String.eqb_neq. tauto.
  - now apply NoDup_filter'.
Qed.

Lemma first_seen_snoc_new (l : list string) (k : string) :
  ~ In k l -> first_seen (l ++ [k]) = first_seen l ++ [k].
Proof.
  induction l as [|a l IH]; simpl; intros Hk; [reflexivity|].
  rewrite IH by tauto. rewrite List.filter_app. simpl.
  assert (E : (k =? a)%string = false) by (apply String.eqb_neq; intros ->; tauto).
  now rewrite E.
Qed.

Lemma first_seen_snoc_old (l : list string) (k : string) :
  In k l -> first_seen (l ++ [k]) = first_seen l.
Proof.
  induction l as [|a l IH]; simpl; intros Hk; [tauto|].
  f_equal.
  destruct (in_dec string_dec k l) as [Hin|Hnin].
  - now rewrite IH.
  - destruct Hk as [->|?]; [|tauto].
    rewrite first_seen_snoc_new by exact Hnin.
    rewrite List.filter_app. simpl. rewrite String.eqb_refl. simpl. now rewrite app_nil_r.
Qed.

Section DictAppend.

Variables (F G : string -> list Tournament.t) (k : string) (t : Tournament.t).

Lemma dict_append_present (ks : list string) :
  List.NoDup ks -> In k ks ->
  (forall k', G k' = if String.eqb k' k then F k' ++ [t] else F k') ->
  dict_append k t (map (fun k' => (k', F k')) ks) = map (fun k' => (k', G k')) ks.
Proof.
  intros Hnd Hin HG. induction ks as [|a ks IH]; simpl; [destruct Hin|].
  inversion Hnd as [|? ? Ha Hks]; subst.
  destruct (String.eqb_spec a k) as [->|Hne].
  - rewrite HG, String.eqb_refl. f_equal.
    apply map_ext_in. intros k' Hk'. rewrite HG.
    destruct (String.eqb_spec k' k) as [->|]; [tauto|reflexivity].
  - rewrite HG. apply String.eqb_neq in Hne. rewrite Hne. f_equal.
    apply IH; [exact Hks|]. destruct Hin as [->|]; [|assumption].
    apply String.eqb_neq in Hne. congruence.
Qed.

Lemma dict_append_absent (ks : list string) :
  ~ In k ks ->
  (forall k', k' <> k -> G k' = F k') -> G k = [t] ->
  dict_append k t (map (fun k' => (k', F k')) ks) = map (fun k' => (k', G k')) (ks ++ [k]).
Proof.
  intros Hnin HG Hk. induction ks as [|a ks IH]; simpl.
  - now rewrite Hk.
  - destruct (String.eqb_spec a k) as [->|Hne]; [simpl in Hnin; tauto|].
    rewrite HG by exact Hne. f_equal. apply IH. simpl in Hnin. tauto.
Qed.

End DictAppend.

Lemma with_key_snoc (key : Tournament.t -> string) (k : string)
    (ts : list Tournament.t) (t : Tournament.t) :
  with_key key k (ts ++ [t])
  = if String.eqb k (key t) then with_key key k ts ++ [t] else with_key key k ts.
Proof.
  unfold with_key. rewrite List.filter_app. simpl. rewrite (String.eqb_sym k).
  destruct (key t =? k)%string; [reflexivity | apply app_nil_r].
Qed.

Lemma with_key_absent (key : Tournament.t -> string) (k : string) (ts : list Tournament.t) :
  ~ In k (map key ts) -> with_key key k ts = [].
Proof.
  intros Hnin. unfold with_key. induction ts as [|x ts IH]; simpl; [reflexivity|].
  destruct (String.eqb_spec (key x) k) as [E|_].
  - exfalso. apply Hnin. left. exact E.
  - apply IH. intros H. apply Hnin. right. exact H.
Qed.

Lemma grouped_snoc (key : Tournament.t -> string) (ts : list Tournament.t) (t : Tournament.t) :
  dict_append (key t) t (grouped key ts) = grouped key (ts ++ [t]).
Proof.
  unfold grouped. rewrite map_app. simpl.
  destruct (in_dec string_dec (key t) (map key ts)) as [Hin|Hnin].
  - rewrite first_seen_snoc_old by exact Hin.
    apply dict_append_present.
    + apply first_seen_NoDup.
    + now apply first_seen_In.
    + intros k'. apply with_key_snoc.
  - rewrite first_seen_snoc_new by exact Hnin.
    apply dict_append_absent.
    + now rewrite first_seen_In.
    + intros k' Hne. rewrite with_key_snoc.
      apply String.eqb_neq in Hne. now rewrite Hne.
    + rewrite with_key_snoc, String.eqb_refl, with_key_absent by exact Hnin. reflexivity.
Qed.

(** The loop shared by [group_by_format] and [group_by_time]. *)
Lemma grouping_loop (key : Tournament.t -> string) (ts : list Tournament.t) :
  fold_left (fun g t => dict_append (key t) t g) ts [] = grouped key ts.
Proof.
  induction ts as [|t ts IH] using rev_ind; [reflexivity|].
  rewrite fold_left_app. simpl. rewrite IH. apply grouped_snoc.
Qed.

(** ** Grouping by format *)

(** C9: [group_by_format] gives each record the key equal to its format,
    or "UNKNOWN" when the format is empty; the groups come in the order in
    which their keys are first seen in the input (not sorted), and each group
    holds the records of its key in the order of the input. *)
Theorem C9_group_by_format :
  forall ts : list Tournament.t,
    group_by_format ts
      = map (fun k => (k, List.filter (fun t => String.eqb (format_key t) k) ts))
          (first_seen (map format_key ts))
    /\ (forall t : Tournament.t,
          format_key t
          = if String.eqb (Tournament.format t) "" then "UNKNOWN" else Tournament.format t)
    /\ map fst (group_by_format
                  [sample_in "PokerOK" "SnG"; sample_in "PokerOK" "MTT";
                   sample_in "PokerOK" ""; sample_in "PokerOK" "SnG"])
       = ["SnG"; "MTT"; "UNKNOWN"].
Proof.
  intros ts. split; [|split].
  - unfold group_by_format. apply grouping_loop.
  - intros t. unfold format_key, PyStr.or_else.
    destruct (Tournament.format t); reflexivity.
  - vm_compute. reflexivity.
Qed.

(** ** Grouping by buy-in *)

Lemma ltb_finite_pos (m m' : positive) (e e' : Z) :
  SFltb (S754_finite false m e) (S754_finite false m' e') = true
  <-> (e < e' \/ (e = e' /\ Z.pos m < Z.pos m'))%Z.
Proof.
  unfold SFltb, SFcompare. change (Pos.compare_cont Eq m m') with (Pos.compare m m').
  destruct (Z.compare_spec e e'); [destruct (Pos.compare_spec m m')| |];
    split; intros; try discriminate; try reflexivity; lia.
Qed.

Lemma leb_finite_pos (m m' : positive) (e e' : Z) :
  SFleb (S754_finite false m e) (S754_finite false m' e') = true
  <-> (e < e' \/ (e = e' /\ Z.pos m <= Z.pos m'))%Z.
Proof.
  unfold SFleb, SFcompare. change (Pos.compare_cont Eq m m') with (Pos.compare m m').
  destruct (Z.compare_spec e e'); [destruct (Pos.compare_spec m m')| |];
    split; intros; try discriminate; try reflexivity; lia.
Qed.

Lemma five_eq : five = S754_finite false 5629499534213120 (-50).
Proof. vm_compute. reflexivity. Qed.

Lemma eleven_eq : eleven = S754_finite false 6192449487634432 (-49).
Proof. vm_compute. reflexivity. Qed.

Lemma thirty_three_eq : thirty_three = S754_finite false 4644337115725824 (-47).
Proof. vm_compute. reflexivity. Qed.

(** Turn the comparisons of a positive finite float with the three bounds
    into integer arithmetic. *)
Ltac float_bounds :=
  repeat match goal with
    | H : SFltb _ _ = true |- _ => apply ltb_finite_pos in H
    | H : SFleb _ _ = true |- _ => apply leb_finite_pos in H
    | H : SFltb _ _ = false |- _ =>
        apply not_true_iff_false in H; rewrite ltb_finite_pos in H
    | H : SFleb _ _ = false |- _ =>
        apply not_true_iff_false in H; rewrite leb_finite_pos in H
    end.

(** How a float compares with the three bounds: below 5, in one of the two
    middle ranges, at least 33, or unordered (NaN). *)
Lemma float_vs_bounds (bi : spec_float) :
  let lt5 := PyFloat.ltb bi five in
  let le5 := PyFloat.leb five bi in
  let lt11 := PyFloat.ltb bi eleven in
  let le11 := PyFloat.leb eleven bi in
  let lt33 := PyFloat.ltb bi thirty_three in
  let le33 := PyFloat.leb thirty_three bi in
  (lt5, le5, lt11, le11, lt33, le33) = (true, false, true, false, true, false)
  \/ (lt5, le5, lt11, le11, lt33, le33) = (false, true, true, false, true, false)
  \/ (lt5, le5, lt11, le11, lt33, le33) = (false, true, false, true, true, false)
  \/ (lt5, le5, lt11, le11, lt33, le33) = (false, true, false, true, false, true)
  \/ ((lt5, le5, lt11, le11, lt33, le33) = (false, false, false, false, false, false)
      /\ PyFloat.is_nan bi = true).
Proof.
  unfold PyFloat.ltb, PyFloat.leb.
  rewrite five_eq, eleven_eq, thirty_three_eq.
  destruct bi as [s|[|]| |[|] m e]; simpl; auto 6.
  destruct (SFltb (S754_finite false m e) (S754_finite false 5629499534213120 (-50))) eqn:H5;
    destruct (SFleb (S754_finite false 5629499534213120 (-50)) (S754_finite false m e)) eqn:H5';
    destruct (SFltb (S754_finite false m e) (S754_finite false 6192449487634432 (-49))) eqn:H11;
    destruct (SFleb (S754_finite false 6192449487634432 (-49)) (S754_finite false m e)) eqn:H11';
    destruct (SFltb (S754_finite false m e) (S754_finite false 4644337115725824 (-47))) eqn:H33;
    destruct (SFleb (S754_finite false 4644337115725824 (-47)) (S754_finite false m e)) eqn:H33';
    auto 6; exfalso; float_bounds; lia.
Qed.

Lemma buyin_label_iff (bi : spec_float) :
  (buyin_label bi = "0–5" <-> PyFloat.ltb bi five = true)
  /\ (buyin_label bi = "5–11"
      <-> PyFloat.leb five bi = true /\ PyFloat.ltb bi eleven = true)
  /\ (buyin_label bi = "11–33"
      <-> PyFloat.leb eleven bi = true /\ PyFloat.ltb bi thirty_three = true)
  /\ (buyin_label bi = "33+"
      <-> PyFloat.leb thirty_three bi = true \/ PyFloat.is_nan bi = true).
Proof.
  unfold buyin_label.
  destruct (float_vs_bounds bi) as [E|[E|[E|[E|[E N]]]]];
    injection E as E1 E2 E3 E4 E5 E6; rewrite E1, E2, E3, E4, E5, E6; simpl;
    (split; [|split; [|split]]); (split; intros H);
    try discriminate; try reflexivity; try (destruct H; discriminate); auto;
    destruct H as [H|H]; try discriminate;
    destruct bi; try discriminate; vm_compute in E1, E2; discriminate.
Qed.

Lemma buyin_label_values (bi : spec_float) :
  buyin_label bi = "0–5" \/ buyin_label bi = "5–11"
  \/ buyin_label bi = "11–33" \/ buyin_label bi = "33+".
Proof.
  unfold buyin_label.
  destruct (PyFloat.ltb bi five); [tauto|].
  destruct (PyFloat.leb five bi && PyFloat.ltb bi eleven); [tauto|].
  destruct (PyFloat.leb eleven bi && PyFloat.ltb bi thirty_three); tauto.
Qed.

Lemma buyin_loop (ts a b c d : list Tournament.t) :
  fold_left (fun ranges t => append_at (buyin_label (Tournament.buy_in t)) t ranges) ts
    [("0–5", a); ("5–11", b); ("11–33", c); ("33+", d)]
  = [("0–5", a ++ with_key buyin_key "0–5" ts);
     ("5–11", b ++ with_key buyin_key "5–11" ts);
     ("11–33", c ++ with_key buyin_key "11–33" ts);
     ("33+", d ++ with_key buyin_key "33+" ts)].
Proof.
  revert a b c d. induction ts as [|t ts IH]; intros a b c d; simpl.
  - now rewrite !app_nil_r.
  - unfold with_key, buyin_key in *. simpl.
    destruct (buyin_label_values (Tournament.buy_in t)) as [E|[E|[E|E]]];
      rewrite E; simpl; rewrite IH; now rewrite <- app_assoc.
Qed.

Lemma four_way_split {A} (key : A -> string) (k1 k2 k3 k4 : string) (l : list A) :
  (forall x, key x = k1 \/ key x = k2 \/ key x = k3 \/ key x = k4) ->
  k1 <> k2 -> k1 <> k3 -> k1 <> k4 -> k2 <> k3 -> k2 <> k4 -> k3 <> k4 ->
  Permutation
    (List.filter (fun x => String.eqb (key x) k1) l
     ++ List.filter (fun x => String.eqb (key x) k2) l
     ++ List.filter (fun x => String.eqb (key x) k3) l
     ++ List.filter (fun x => String.eqb (key x) k4) l)
    l.
Proof.
  intros Hk n12 n13 n14 n23 n24 n34.
  induction l as [|x l IH]; simpl; [constructor|].
  destruct (Hk x) as [E|[E|[E|E]]]; rewrite E;
    repeat match goal with
      | |- context [String.eqb ?a ?a] => rewrite (String.eqb_refl a)
      | |- context [String.eqb ?a ?b] =>
          let F := fresh in
          assert (F : String.eqb a b = false) by (apply String.eqb_neq; congruence);
          rewrite F; clear F
      end.
  - simpl. now constructor.
  - symmetry. apply Permutation_cons_app. now symmetry.
  - symmetry. rewrite app_assoc. apply Permutation_cons_app.
    rewrite <- app_assoc. now symmetry.
  - symmetry. rewrite !app_assoc. apply Permutation_cons_app.
    rewrite <- !app_assoc. now symmetry.
Qed.

(** C3 (as amended): [group_by_buyin_range] always returns the four
    buckets "0–5", "5–11", "11–33" and "33+", and files each record in
    exactly one of them: the buckets hold the records of the input, each
    once, in input order, no record is in two buckets and every record is in
    one.  The bucket is determined by the buy-in: "0–5" holds the buy-ins
    below 5 (negative ones included), "5–11" those from 5 inclusive to 11
    exclusive, "11–33" those from 11 inclusive to 33 exclusive, and "33+"
    everything else, that is the buy-ins of at least 33 and NaN. *)
Theorem C3_buyin_partition :
  forall ts : list Tournament.t,
    group_by_buyin_range ts
      = [("0–5", List.filter (fun t => String.eqb (buyin_key t) "0–5") ts);
         ("5–11", List.filter (fun t => String.eqb (buyin_key t) "5–11") ts);
         ("11–33", List.filter (fun t => String.eqb (buyin_key t) "11–33") ts);
         ("33+", List.filter (fun t => String.eqb (buyin_key t) "33+") ts)]
    /\ Permutation (concat (map snd (group_by_buyin_range ts))) ts
    /\ (forall (t : Tournament.t) (k1 k2 : string),
          In t (bucket k1 (group_by_buyin_range ts)) ->
          In t (bucket k2 (group_by_buyin_range ts)) -> k1 = k2)
    /\ (forall t : Tournament.t,
          In t ts -> In t (bucket (buyin_key t) (group_by_buyin_range ts)))
    /\ (forall t : Tournament.t,
          let bi := Tournament.buy_in t in
          (buyin_key t = "0–5" <-> PyFloat.ltb bi five = true)
          /\ (buyin_key t = "5–11"
              <-> PyFloat.leb five bi = true /\ PyFloat.ltb bi eleven = true)
          /\ (buyin_key t = "11–33"
              <-> PyFloat.leb eleven bi = true /\ PyFloat.ltb bi thirty_three = true)
          /\ (buyin_key t = "33+"
              <-> PyFloat.leb thirty_three bi = true \/ PyFloat.is_nan bi = true)).
Proof.
  intros ts.
  assert (E : group_by_buyin_range ts
      = [("0–5", with_key buyin_key "0–5" ts); ("5–11", with_key buyin_key "5–11" ts);
         ("11–33", with_key buyin_key "11–33" ts); ("33+", with_key buyin_key "33+" ts)]).
  { unfold group_by_buyin_range. now rewrite buyin_loop. }
  assert (Hb : forall t k, In t (bucket k (group_by_buyin_range ts)) ->
                           In t ts /\ buyin_key t = k).
  { intros t k. rewrite E. unfold with_key. cbn [bucket].
    repeat match goal with
      | |- context [String.eqb ?a k] =>
          destruct (String.eqb_spec a k) as [<-|_];
          [rewrite filter_In, String.eqb_eq; tauto|]
      end.
    intros []. }
  split; [exact E|]. split; [|split; [|split]].
  - rewrite E. simpl. rewrite app_nil_r. unfold with_key.
    apply (four_way_split buyin_key); try discriminate.
    intros x. apply buyin_label_values.
  - intros t k1 k2 H1 H2. apply Hb in H1 as [_ <-]. apply Hb in H2 as [_ <-]. reflexivity.
  - intros t Hin. rewrite E. unfold with_key. cbn [bucket].
    destruct (buyin_label_values (Tournament.buy_in t)) as [K|[K|[K|K]]];
      fold (buyin_key t) in K; rewrite K; cbn;
      (apply filter_In; split; [exact Hin|]); rewrite K; reflexivity.
  - intros t. apply buyin_label_iff.
Qed.

(** C3, the lowest range as the claim gives it: a record with buy-in -1 is
    filed under "0–5" although -1 is not in [0, 5). *)
Lemma C3_negative_buy_in_filed_under_0_5 :
  ~ (forall t : Tournament.t,
       In t (bucket "0–5" (group_by_buyin_range [sample (-1) 0 0])) ->
       PyFloat.leb PyFloat.zero (Tournament.buy_in t) = true
       /\ PyFloat.ltb (Tournament.buy_in t) five = true).
Proof.
  intros H.
  assert (Hin : In (sample (-1) 0 0) (bucket "0–5" (group_by_buyin_range [sample (-1) 0 0]))).
  { vm_compute. left. reflexivity. }
  destruct (H _ Hin) as [Hlow _]. vm_compute in Hlow. discriminate Hlow.
Qed.

(** Scenario D: 4.99, 5.00, 10.99 and 33.00 fall in "0–5", "5–11", "5–11"
    and "33+". *)
Example scenario_D :
  map buyin_key [bought_for 499 100; bought_for 5 1; bought_for 1099 100; bought_for 33 1]
  = ["0–5"; "5–11"; "5–11"; "33+"].
Proof. vm_compute. reflexivity. Qed.

(** ** Sorting the time buckets *)

Lemma ltb_false_leb (a b : string) : String.ltb a b = false <-> String.leb b a = true.
Proof.
  unfold String.ltb, String.leb. rewrite (String.compare_antisym a b).
  destruct (String.compare b a); simpl; split; congruence.
Qed.

Lemma ltb_true_leb (a b : string) : String.ltb a b = true -> String.leb a b = true.
Proof. unfold String.ltb, String.leb. destruct (String.compare a b); congruence. Qed.

Lemma leb_trans (a b c : string) :
  String.leb a b = true -> String.leb b c = true -> String.leb a c = true.
Proof.
  intros H1 H2. apply Is_true_true. apply Is_true_true in H1, H2.
  exact (transitivity (R := String.le) H1 H2).
Qed.

Lemma leb_neq_ltb (a b : string) : String.leb a b = true -> a <> b -> String.ltb a b = true.
Proof.
  unfold String.ltb, String.leb. intros H Hne.
  destruct (String.compare a b) eqn:E; try congruence.
  apply String.compare_eq_iff in E. contradiction.
Qed.

Lemma insert_by_key_perm (x : string * list Tournament.t) (l : groups) :
  Permutation (insert_by_key x l) (x :: l).
Proof.
  induction l as [|y l IH]; simpl; [reflexivity|].
  destruct (String.ltb (fst y) (fst x)); [|reflexivity].
  rewrite IH. apply perm_swap.
Qed.

Lemma py_sorted_perm (l : groups) : Permutation (py_sorted l) l.
Proof.
  induction l as [|x l IH]; simpl; [reflexivity|].
  rewrite insert_by_key_perm. now constructor.
Qed.

Lemma insert_by_key_sorted (x : string * list Tournament.t) (l : groups) :
  StronglySorted key_le l -> StronglySorted key_le (insert_by_key x l).
Proof.
  induction 1 as [|y l Hl IH Hy]; simpl.
  - repeat constructor.
  - destruct (String.ltb (fst y) (fst x)) eqn:E.
    + constructor; [exact IH|].
      apply (Permutation_Forall (x := x :: l)).
      * symmetry. apply insert_by_key_perm.
      * constructor; [|exact Hy]. now apply ltb_true_leb.
    + apply ltb_false_leb in E.
      constructor; [now constructor|].
      constructor; [exact E|].
      eapply List.Forall_impl; [|exact Hy].
      intros z Hz. unfold key_le in *. eapply leb_trans; eassumption.
Qed.

Lemma py_sorted_sorted (l : groups) : StronglySorted key_le (py_sorted l).
Proof.
  induction l as [|x l IH]; simpl; [constructor|].
  now apply insert_by_key_sorted.
Qed.

Lemma sorted_distinct_strict (l : groups) :
  StronglySorted key_le l -> List.NoDup (map fst l) -> StronglySorted key_lt l.
Proof.
  induction 1 as [|y l Hl IH Hy]; simpl; intros Hnd; [constructor|].
  inversion Hnd as [|? ? Hnin Hnd']; subst.
  constructor; [now apply IH|].
  rewrite List.Forall_forall in *. intros z Hz.
  apply leb_neq_ltb; [exact (Hy z Hz)|].
  intros Heq. apply Hnin. rewrite Heq. now apply in_map.
Qed.

Lemma grouped_keys (key : Tournament.t -> string) (ts : list Tournament.t) :
  map fst (grouped key ts) = first_seen (map key ts).
Proof. unfold grouped. rewrite map_map. simpl. apply map_id. Qed.

Lemma grouped_ext (key1 key2 : Tournament.t -> string) (ts : list Tournament.t) :
  (forall t, key1 t = key2 t) -> grouped key1 ts = grouped key2 ts.
Proof.
  intros H. unfold grouped, with_key.
  rewrite (map_ext key1 key2 H). apply map_ext. intros k. f_equal.
  apply filter_ext. intros t. now rewrite H.
Qed.

Lemma first_seen_constant (k : string) (n : nat) :
  first_seen (repeat k (S n)) = [k].
Proof.
  induction n as [|n IH]; [reflexivity|].
  change (repeat k (S (S n))) with (k :: repeat k (S n)).
  cbn [first_seen]. rewrite IH. simpl. now rewrite String.eqb_refl.
Qed.

Lemma grouped_constant (k : string) (t : Tournament.t) (ts : list Tournament.t) :
  grouped (fun _ => k) (t :: ts) = [(k, t :: ts)].
Proof.
  unfold grouped, with_key.
  assert (E : map (fun _ : Tournament.t => k) (t :: ts) = repeat k (S (List.length ts))).
  { simpl. f_equal. induction ts as [|x ts IH]; simpl; [reflexivity|now rewrite IH]. }
  rewrite E, first_seen_constant. cbn [map]. do 2 f_equal.
  apply filter_all_true. intros x. apply String.eqb_refl.
Qed.

(** ** Dates written and read back *)

Lemma list_ascii_app (a b : string) :
  list_ascii_of_string (a ++ b) = list_ascii_of_string a ++ list_ascii_of_string b.
Proof. induction a as [|c a IH]; simpl; [reflexivity | now rewrite IH]. Qed.

Lemma in_Z_range (lo n z : Z) :
  (0 <= lo <= z)%Z -> (z < lo + n)%Z -> In z (Z_range lo n).
Proof.
  intros H1 H2. apply in_map_iff. exists (Z.to_nat z). split; [lia|].
  apply in_seq. lia.
Qed.

Lemma all_years_ok : forallb year_text_ok all_years = true.
Proof. vm_compute. reflexivity. Qed.

Lemma early_years_ok : forallb short_year_ok early_years = true.
Proof. vm_compute. reflexivity. Qed.

Lemma str_year_four (y : Z) :
  (1000 <= y <= 9999)%Z ->
  exists a b c e : ascii,
    PyInt.str y = String a (String b (String c (String e EmptyString)))
    /\ forallb PyStr.is_digit [a; b; c; e] = true
    /\ PyInt.value_of_digits [a; b; c; e] = y.
Proof.
  intros Hy.
  assert (Hin : In y all_years) by (apply in_Z_range; lia).
  pose proof (proj1 (forallb_forall _ _) all_years_ok y Hin) as Hok.
  unfold year_text_ok in Hok.
  destruct (PyInt.str y) as [|a [|b [|c [|e [|? ?]]]]]; try discriminate.
  apply andb_true_iff in Hok as [Hd Hv]. apply Z.eqb_eq in Hv.
  exists a, b, c, e. auto.
Qed.

Lemma parse_year_str (y : Z) (rest : string) :
  (1000 <= y <= 9999)%Z ->
  PyDate.parse_year (list_ascii_of_string (PyInt.str y ++ rest))
  = Some (y, list_ascii_of_string rest).
Proof.
  intros Hy. destruct (str_year_four y Hy) as (a & b & c & e & -> & Hd & Hv).
  rewrite list_ascii_app. cbn [list_ascii_of_string app].
  unfold PyDate.parse_year. rewrite Hd, Hv. reflexivity.
Qed.

Lemma parse_year_short (y : Z) (rest : string) :
  (1 <= y <= 999)%Z ->
  PyDate.parse_year (list_ascii_of_string (PyInt.str y ++ String "-" rest)) = None.
Proof.
  intros Hy.
  assert (Hin : In y early_years) by (apply in_Z_range; lia).
  pose proof (proj1 (forallb_forall _ _) early_years_ok y Hin) as Hok.
  unfold short_year_ok in Hok.
  rewrite list_ascii_app. cbn [list_ascii_of_string].
  unfold PyDate.parse_year.
  destruct (list_ascii_of_string (PyInt.str y)) as [|a [|b [|c [|? ?]]]];
    try discriminate; cbn [app];
    destruct (list_ascii_of_string rest) as [|r1 [|r2 [|r3 ?]]];
    try reflexivity; cbn [forallb];
    change (PyStr.is_digit "-") with false;
    rewrite ?andb_false_r, ?andb_false_l; reflexivity.
Qed.

Lemma parse_month_zfill (m : Z) (rest : list ascii) :
  (1 <= m <= 12)%Z ->
  PyDate.parse_month (list_ascii_of_string (PyInt.zfill 2 m) ++ rest) = Some (m, rest).
Proof.
  intros Hm.
  assert (Hin : In m all_months) by (apply in_Z_range; lia).
  vm_compute in Hin.
  repeat (destruct Hin as [<-|Hin]; [reflexivity|]).
  destruct Hin.
Qed.

Lemma parse_day_zfill (d : Z) :
  (1 <= d <= 31)%Z ->
  PyDate.parse_day (list_ascii_of_string (PyInt.zfill 2 d)) = Some (d, []).
Proof.
  intros Hd.
  assert (Hin : In d all_days) by (apply in_Z_range; lia).
  vm_compute in Hin.
  repeat (destruct Hin as [<-|Hin]; [reflexivity|]).
  destruct Hin.
Qed.

Lemma days_in_month_le_31 (y m : Z) : (PyDate.days_in_month y m <= 31)%Z.
Proof.
  unfold PyDate.days_in_month.
  repeat match goal with
    | |- context [match ?p with _ => _ end] => destruct p
    end; lia.
Qed.

Lemma valid_ranges (d : PyDate.date) :
  PyDate.valid d = true ->
  (1 <= PyDate.year d <= 9999)%Z /\ (1 <= PyDate.month d <= 12)%Z
  /\ (1 <= PyDate.day d <= 31)%Z.
Proof.
  destruct d as [y m dd]. unfold PyDate.valid, PyDate.valid_ymd.
  cbn [PyDate.year PyDate.month PyDate.day]. intros Hv.
  repeat (apply andb_true_iff in Hv as [Hv ?]).
  pose proof (days_in_month_le_31 y m). lia.
Qed.

Lemma strptime_strftime (d : PyDate.date) :
  PyDate.valid d = true -> (1000 <= PyDate.year d)%Z ->
  PyDate.strptime_Ymd (PyDate.strftime_Ymd d) = Some d.
Proof.
  intros Hv Hy. destruct (valid_ranges d Hv) as (Hy' & Hm & Hd).
  destruct d as [y m dd]. unfold PyDate.valid in Hv.
  cbn [PyDate.year PyDate.month PyDate.day] in *.
  unfold PyDate.strptime_Ymd, PyDate.strftime_Ymd.
  cbn [PyDate.year PyDate.month PyDate.day].
  rewrite (parse_year_str y _ (conj Hy (proj2 Hy'))). cbn [mbind option_bind].
  rewrite !list_ascii_app. cbn [list_ascii_of_string app PyDate.expect].
  rewrite Ascii.eqb_refl. cbn [mbind option_bind].
  rewrite (parse_month_zfill m _ Hm). cbn [mbind option_bind PyDate.expect].
  rewrite Ascii.eqb_refl. cbn [mbind option_bind].
  rewrite (parse_day_zfill dd Hd). cbn [mbind option_bind].
  now rewrite Hv.
Qed.

Lemma strptime_strftime_early (d : PyDate.date) :
  PyDate.valid d = true -> (PyDate.year d < 1000)%Z ->
  PyDate.strptime_Ymd (PyDate.strftime_Ymd d) = None.
Proof.
  intros Hv Hy. destruct (valid_ranges d Hv) as (Hy' & _ & _).
  unfold PyDate.strptime_Ymd, PyDate.strftime_Ymd.
  change ("-" ++ PyInt.zfill 2 (PyDate.month d) ++ "-" ++ PyInt.zfill 2 (PyDate.day d))%string
    with (String "-" (PyInt.zfill 2 (PyDate.month d) ++ "-" ++ PyInt.zfill 2 (PyDate.day d)))%string.
  rewrite parse_year_short by lia. reflexivity.
Qed.

(** ** Grouping by time *)

Lemma group_by_time_sorted (ts : list Tournament.t) (mode : string) :
  mode <> "none" -> group_by_time ts mode = py_sorted (grouped (time_key mode) ts).
Proof.
  intros Hm. unfold group_by_time.
  apply String.eqb_neq in Hm. rewrite Hm. now rewrite grouping_loop.
Qed.

Lemma time_key_unknown (mode : string) (t : Tournament.t) :
  known_mode mode = false -> time_key mode t = "ALL".
Proof.
  unfold known_mode, time_key. intros H.
  apply orb_false_iff in H as [H Hmonth]. apply orb_false_iff in H as [Hday Hweek].
  now rewrite Hday, Hweek, Hmonth.
Qed.

(** C4 (as amended): with mode "none" [group_by_time] returns the single
    group "ALL" holding all the records.  With any other mode the result has
    one group per distinct key, holding the records of that key in input
    order, and the groups are sorted by key in ascending lexicographic order.
    The key is, for "day", the year in decimal, "-", the month on two digits,
    "-" and the day on two digits; for "week", the ISO year in decimal
    followed by "-W" and the ISO week on two digits (so a date in ISO week 1
    of ISO year [y] has key [y]-W01); for "month", the year in decimal, "-"
    and the month on two digits; and "ALL" for any unrecognized mode.  The
    year is not padded: it takes four digits from the year 1000 on and fewer
    before (1 June 999 has keys 999-06-01, 999-W22 and 999-06).  An
    unrecognized mode returns, without an error, the single group "ALL" with
    all the records when there is at least one record, and no group at all
    when there is none. *)
Theorem C4_group_by_time :
  forall ts : list Tournament.t,
    group_by_time ts "none" = [("ALL", ts)]
    /\ (forall mode : string,
          mode <> "none" ->
          StronglySorted key_lt (group_by_time ts mode)
          /\ Permutation (group_by_time ts mode)
               (map (fun k => (k, List.filter (fun t => String.eqb (time_key mode t) k) ts))
                  (first_seen (map (time_key mode) ts))))
    /\ (forall t : Tournament.t,
          let d := Tournament.date t in
          time_key "day" t
            = (PyInt.str (PyDate.year d) ++ "-" ++ PyInt.zfill 2 (PyDate.month d)
               ++ "-" ++ PyInt.zfill 2 (PyDate.day d))%string
          /\ time_key "week" t
             = (let '(iso_year, iso_week, _) := PyDate.isocalendar d in
                (PyInt.str iso_year ++ "-W" ++ PyInt.zfill 2 iso_week)%string)
          /\ (forall y wd : Z,
                PyDate.isocalendar d = (y, 1%Z, wd) ->
                time_key "week" t = (PyInt.str y ++ "-W01")%string)
          /\ time_key "month" t
             = (PyInt.str (PyDate.year d) ++ "-" ++ PyInt.zfill 2 (PyDate.month d))%string)
    /\ (forall y : Z, (1000 <= y <= 9999)%Z -> String.length (PyInt.str y) = 4%nat)
    /\ time_key "day" (played_on 999 6 1) = "999-06-01"
    /\ time_key "week" (played_on 999 6 1) = "999-W22"
    /\ time_key "month" (played_on 999 6 1) = "999-06"
    /\ time_key "week" (played_on 2024 1 1) = "2024-W01"
    /\ (forall mode : string,
          mode <> "none" -> known_mode mode = false ->
          (forall t, time_key mode t = "ALL")
          /\ group_by_time ts mode
             = match ts with
               | [] => []
               | _ :: _ => [("ALL", ts)]
               end).
Proof.
  intros ts. split; [reflexivity|]. split; [|split; [|split; [|
    do 4 (split; [vm_compute; reflexivity|])]]].
  - intros mode Hm. rewrite group_by_time_sorted by exact Hm. split.
    + apply sorted_distinct_strict; [apply py_sorted_sorted|].
      apply (Permutation_NoDup (l := map fst (grouped (time_key mode) ts))).
      * apply Permutation_map. symmetry. apply py_sorted_perm.
      * rewrite grouped_keys. apply first_seen_NoDup.
    + apply py_sorted_perm.
  - intros t d. repeat split.
    intros y wd Hiso. unfold time_key. simpl. fold d. now rewrite Hiso.
  - intros y Hy. destruct (str_year_four y Hy) as (a & b & c & e & -> & _).
    reflexivity.
  - intros mode Hm Hk. split; [intros t; now apply time_key_unknown|].
    rewrite group_by_time_sorted by exact Hm.
    rewrite (grouped_ext _ (fun _ => "ALL")) by (intros t; now apply time_key_unknown).
    destruct ts as [|t ts]; [reflexivity|].
    now rewrite grouped_constant.
Qed.

(** C4, the fallback on an empty input: an unrecognized mode returns no
    group at all, not a group "ALL". *)
Lemma C4_unknown_mode_on_empty_input :
  ~ (group_by_time [] "year" = [("ALL", [])]).
Proof. vm_compute. discriminate. Qed.

Example group_by_time_examples :
  map fst (group_by_time [played_on 2024 3 9; played_on 2024 1 1; played_on 2024 3 9] "day")
    = ["2024-01-01"; "2024-03-09"]
  /\ map fst (group_by_time [played_on 2024 12 30; played_on 2021 1 3; played_on 2024 1 1] "week")
     = ["2020-W53"; "2024-W01"; "2025-W01"]
  /\ map fst (group_by_time [played_on 2024 3 9; played_on 2023 11 1] "month")
     = ["2023-11"; "2024-03"]
  /\ group_by_time [played_on 2024 3 9] "year" = [("ALL", [played_on 2024 3 9])]
  /\ time_key "week" (played_on 999 6 1) = "999-W22".
Proof. repeat split; vm_compute; reflexivity. Qed.

(** ** Ingestion *)

Example from_csv_row_examples :
  from_csv_row sample_row
    = (Some (Tournament.mk (PyDate.mkdate 2024 1 31) "PokerOK" "Daily"
               (PyFloat.of_ratio false 499 100) PyFloat.zero "USD" PyFloat.zero
               3 0 "" ""), [])
  /\ from_csv_row bad_date_row = (None, [BadDate (PyText "31.01.2024")])
  /\ from_csv_row short_row = (None, [BadRow])
  /\ from_csv_row ∅ = (None, [BadDate PyNone]).
Proof. repeat split; vm_compute; reflexivity. Qed.

Lemma get_text_some (row : gmap string pyval) (key default s : string) :
  get_text row key default = Some s -> s = text_of row key default.
Proof.
  unfold get_text, text_of. destruct (row !! key) as [[x|]|]; congruence.
Qed.

Lemma get_text_has_text (row : gmap string pyval) (key default : string) :
  get_text row key default
  = if has_text row key then Some (text_of row key default) else None.
Proof. unfold get_text, has_text, text_of. now destruct (row !! key) as [[s|]|]. Qed.

Lemma build_cases (d : PyDate.date) (row : gmap string pyval) :
  build d row
  = if forallb (has_text row) record_columns then Some (record_of d row) else None.
Proof.
  unfold build. rewrite !get_text_has_text. cbn [forallb record_columns].
  repeat match goal with
    | |- context [has_text row ?k] => destruct (has_text row k); [|reflexivity]
    end.
  reflexivity.
Qed.

Lemma has_text_false (row : gmap string pyval) (key : string) :
  has_text row key = false <-> row !! key = Some PyNone.
Proof.
  unfold has_text. destruct (row !! key) as [[s|]|]; split; congruence.
Qed.

Lemma forallb_false_ex {A} (p : A -> bool) (l : list A) :
  forallb p l = false -> exists x, In x l /\ p x = false.
Proof.
  induction l as [|x l IH]; simpl; [discriminate|].
  destruct (p x) eqn:E; simpl.
  - intros H. destruct (IH H) as (y & Hy & Hp). eauto.
  - eauto.
Qed.

Lemma build_none (d : PyDate.date) (row : gmap string pyval) :
  build d row = None
  <-> exists k, In k record_columns /\ row !! k = Some PyNone.
Proof.
  rewrite build_cases. destruct (forallb (has_text row) record_columns) eqn:E.
  - split; [discriminate|]. intros (k & Hin & Hk).
    rewrite forallb_forall in E. specialize (E k Hin).
    apply has_text_false in Hk. congruence.
  - split; [|reflexivity]. intros _.
    destruct (forallb_false_ex _ _ E) as (k & Hin & Hk).
    exists k. split; [exact Hin | now apply has_text_false].
Qed.

Lemma build_some (d : PyDate.date) (row : gmap string pyval) (t : Tournament.t) :
  build d row = Some t -> t = record_of d row.
Proof.
  unfold build, record_of. intros H.
  repeat match type of H with
    | context [get_text row ?k ?v] =>
        let E := fresh "E" in
        destruct (get_text row k v) eqn:E; simpl in H; [|discriminate H];
        apply get_text_some in E; subst
    end.
  now injection H as <-.
Qed.

Lemma strptime_valid (s : string) (d : PyDate.date) :
  PyDate.strptime_Ymd s = Some d -> PyDate.valid d = true.
Proof.
  unfold PyDate.strptime_Ymd. intros H.
  destruct (PyDate.parse_year _) as [[y r1]|]; simpl in H; [|discriminate].
  destruct (PyDate.expect _ r1) as [r2|]; simpl in H; [|discriminate].
  destruct (PyDate.parse_month r2) as [[m r3]|]; simpl in H; [|discriminate].
  destruct (PyDate.expect _ r3) as [r4|]; simpl in H; [|discriminate].
  destruct (PyDate.parse_day r4) as [[dd r5]|]; simpl in H; [|discriminate].
  destruct r5; [|discriminate].
  destruct (PyDate.valid_ymd y m dd) eqn:V; [|discriminate].
  injection H as <-. exact V.
Qed.

Lemma date_of_valid (row : gmap string pyval) (d : PyDate.date) :
  date_of row = Some d -> PyDate.valid d = true.
Proof.
  unfold date_of. destruct (row !! "date") as [[s|]|]; simpl; try discriminate.
  apply strptime_valid.
Qed.

Lemma from_csv_row_cases (row : gmap string pyval) :
  from_csv_row row
  = match date_of row with
    | None => (None, [BadDate (get_date row)])
    | Some d =>
        match build d row with
        | Some x => (Some x, [])
        | None => (None, [BadRow])
        end
    end.
Proof. reflexivity. Qed.

Lemma strptime_short (s : string) :
  (String.length s < 8)%nat -> PyDate.strptime_Ymd s = None.
Proof.
  intros H. unfold PyDate.strptime_Ymd.
  destruct s as [|a [|b [|c [|d [|e [|f [|g [|h r]]]]]]]]; simpl in H; try lia;
    cbn [list_ascii_of_string PyDate.parse_year]; try reflexivity;
    destruct (forallb PyStr.is_digit [a; b; c; d]); try reflexivity;
    cbn [mbind option_bind PyDate.expect]; try reflexivity;
    destruct (Ascii.eqb e "-"); try reflexivity;
    cbn [mbind option_bind PyDate.parse_month]; try reflexivity;
    repeat match goal with
      | |- context [if ?x then _ else _] =>
          destruct x; cbn [mbind option_bind PyDate.expect PyDate.parse_day];
          try reflexivity
      end.
Qed.

(** C7 (as amended): [from_csv_row] returns nothing in two cases.  When the
    date column is missing, is [None] or does not parse as YYYY-MM-DD, it
    prints the date warning with the offending value.  When the date parses
    but one of the ten other columns is [None] (a line too short to reach
    it), it prints the row warning: such a row is rejected although its date
    is good.  In every other case it returns, without any warning, the
    record whose numeric fields are the parsed columns, 0 for a column that
    is blank or does not parse, and whose text fields are the stripped
    columns: "" for a missing room, format or notes, and "USD" for a blank
    currency.  A date cell holding a valid date from the year 1000 on,
    written as YYYY-MM-DD, parses to that date; a date cell of fewer than
    eight characters does not parse; a date that parses is one of the
    calendar. *)
Theorem C7_from_csv_row :
  forall row : gmap string pyval,
    (fst (from_csv_row row) = None
     <-> date_of row = None
         \/ exists k, In k record_columns /\ row !! k = Some PyNone)
    /\ (date_of row = None -> from_csv_row row = (None, [BadDate (get_date row)]))
    /\ (forall d, date_of row = Some d ->
          (exists k, In k record_columns /\ row !! k = Some PyNone) ->
          from_csv_row row = (None, [BadRow]))
    /\ (forall d, date_of row = Some d ->
          (forall k, In k record_columns -> row !! k <> Some PyNone) ->
          from_csv_row row = (Some (record_of d row), []))
    /\ (row !! "date" = None \/ row !! "date" = Some PyNone -> date_of row = None)
    /\ (forall d : PyDate.date,
          PyDate.valid d = true -> (1000 <= PyDate.year d)%Z ->
          row !! "date" = Some (PyText (PyDate.strftime_Ymd d)) ->
          date_of row = Some d)
    /\ (forall s : string,
          row !! "date" = Some (PyText s) -> (String.length s < 8)%nat ->
          date_of row = None)
    /\ (forall d : PyDate.date, date_of row = Some d -> PyDate.valid d = true)
    /\ from_csv_row sample_row
       = (Some (Tournament.mk (PyDate.mkdate 2024 1 31) "PokerOK" "Daily"
                  (PyFloat.of_ratio false 499 100) PyFloat.zero "USD" PyFloat.zero
                  3 0 "" ""), [])
    /\ from_csv_row bad_date_row = (None, [BadDate (PyText "31.01.2024")])
    /\ (forall v : string,
          PyStr.strip v = "" \/ PyParse.py_float (PyStr.strip v) = None ->
          to_float v = PyFloat.zero)
    /\ (forall v : string,
          PyStr.strip v = "" \/ PyParse.py_int (PyStr.strip v) = None ->
          to_int v = 0%Z)
    /\ (forall d : PyDate.date,
          let t := record_of d row in
          (row !! "room" = None -> Tournament.room t = "")
          /\ (PyStr.strip (text_of row "currency" "") = "" -> Tournament.currency t = "USD")
          /\ (row !! "format" = None -> Tournament.format t = "")
          /\ (row !! "notes" = None -> Tournament.notes t = "")).
Proof.
  intros row.
  assert (Hnone : date_of row = None -> from_csv_row row = (None, [BadDate (get_date row)])).
  { intros Hd. now rewrite from_csv_row_cases, Hd. }
  assert (Hshort : forall d, date_of row = Some d ->
            (exists k, In k record_columns /\ row !! k = Some PyNone) ->
            from_csv_row row = (None, [BadRow])).
  { intros d Hd Hk. apply (build_none d) in Hk.
    now rewrite from_csv_row_cases, Hd, Hk. }
  assert (Hsome : forall d, date_of row = Some d ->
            (forall k, In k record_columns -> row !! k <> Some PyNone) ->
            from_csv_row row = (Some (record_of d row), [])).
  { intros d Hd Hk. rewrite from_csv_row_cases, Hd, build_cases.
    destruct (forallb (has_text row) record_columns) eqn:E; [reflexivity|].
    destruct (forallb_false_ex _ _ E) as (k & Hin & Hf).
    apply has_text_false in Hf. now destruct (Hk k Hin). }
  split; [|split; [exact Hnone|split; [exact Hshort|split; [exact Hsome|]]]].
  - rewrite from_csv_row_cases. destruct (date_of row) as [d|] eqn:Hd.
    + rewrite <- (build_none d). destruct (build d row); simpl; split.
      * discriminate.
      * intros [H|H]; discriminate.
      * intros _. now right.
      * reflexivity.
    + simpl. split; [now left | reflexivity].
  - split; [|split; [|split; [|split; [|split; [|split; [|split; [|split]]]]]]].
    + unfold date_of. intros [-> | ->]; reflexivity.
    + intros d Hv Hy Hcell. unfold date_of. rewrite Hcell. simpl.
      now apply strptime_strftime.
    + intros s Hcell Hlen. unfold date_of. rewrite Hcell. simpl.
      now apply strptime_short.
    + apply date_of_valid.
    + vm_compute. reflexivity.
    + vm_compute. reflexivity.
    + intros v [H|H]; unfold to_float; rewrite H;
        [reflexivity | now destruct (negb _)].
    + intros v [H|H]; unfold to_int; rewrite H;
        [reflexivity | now destruct (negb _)].
    + intros d t. unfold t, record_of, text_of. simpl. repeat split.
      * intros ->. reflexivity.
      * intros ->. reflexivity.
      * intros ->. reflexivity.
      * intros ->. reflexivity.
Qed.

(** C7, read literally: the line too short to reach the [name] column has a
    date that parses, and is rejected all the same, with the row warning. *)
Lemma C7_short_line_rejected :
  ~ (forall row : gmap string pyval,
       fst (from_csv_row row) = None <-> date_of row = None).
Proof.
  intros H. destruct (H short_row) as [H1 _].
  assert (E : fst (from_csv_row short_row) = None) by (vm_compute; reflexivity).
  specialize (H1 E). vm_compute in H1. discriminate H1.
Qed.

Lemma or_else_nonempty (a b : string) : b <> "" -> PyStr.or_else a b <> "".
Proof. unfold PyStr.or_else. destruct a; simpl; [tauto | discriminate]. Qed.

(** C6 (as amended): every record constructed by [from_csv_row] has a
    valid calendar date and a non-empty currency, namely the stripped
    currency column or "USD" when that is blank; its buy-in, rake, place and
    players are what the columns parse to, without any check of their sign,
    and nothing is printed. *)
Theorem C6_ingested_record :
  forall (row : gmap string pyval) (t : Tournament.t),
    fst (from_csv_row row) = Some t ->
    PyDate.valid (Tournament.date t) = true
    /\ Tournament.currency t <> ""
    /\ Tournament.currency t = PyStr.or_else (PyStr.strip (text_of row "currency" "")) "USD"
    /\ Tournament.buy_in t = to_float (text_of row "buy_in" "0")
    /\ Tournament.rake t = to_float (text_of row "rake" "0")
    /\ Tournament.place t = to_int (text_of row "place" "0")
    /\ Tournament.players t = to_int (text_of row "players" "0")
    /\ snd (from_csv_row row) = [].
Proof.
  intros row t. rewrite from_csv_row_cases.
  destruct (date_of row) as [d|] eqn:Hd; simpl; [|discriminate].
  destruct (build d row) as [x|] eqn:Hb; simpl; [|discriminate].
  intros [= ->]. apply build_some in Hb. subst t. simpl.
  repeat split; try reflexivity.
  - now apply (date_of_valid row).
  - apply or_else_nonempty. discriminate.
Qed.

Lemma C6_ingested_record_witness :
  fst (from_csv_row negative_row) = Some negative_record
  /\ Tournament.currency negative_record <> ""
  /\ Tournament.buy_in negative_record = to_float (text_of negative_row "buy_in" "0").
Proof.
  assert (H : fst (from_csv_row negative_row) = Some negative_record)
    by (vm_compute; reflexivity).
  split; [exact H|].
  destruct (C6_ingested_record negative_row negative_record H) as (_ & H2 & _ & H4 & _).
  split; [exact H2 | exact H4].
Defined.

(** C6, the invariants as stated: the record built from a row with buy-in
    "-5", place "-1" and currency "usd" breaks them. *)
Lemma C6_negative_buy_in_accepted :
  ~ (forall t : Tournament.t,
       fst (from_csv_row negative_row) = Some t -> invariants_stated t).
Proof.
  intros H.
  assert (E : fst (from_csv_row negative_row) = Some negative_record)
    by (vm_compute; reflexivity).
  destruct (H _ E) as (Hbuy & _). vm_compute in Hbuy. discriminate Hbuy.
Qed.

(** * Further properties of the module *)

(** ** Dates written and read back *)

(** X1: a valid date of the year 1000 or later, written as [%Y-%m-%d], is
    read back by [parse_date] as the same date; a valid date before the year
    1000 is written with a year of fewer than four digits, which
    [parse_date] refuses. *)
Theorem parse_date_strftime :
  forall d : PyDate.date,
    PyDate.valid d = true ->
    ((1000 <= PyDate.year d)%Z ->
     parse_date (PyText (PyDate.strftime_Ymd d)) = Some d)
    /\ ((PyDate.year d < 1000)%Z ->
        parse_date (PyText (PyDate.strftime_Ymd d)) = None).
Proof.
  intros d Hv. unfold parse_date. split; intros Hy.
  - now apply strptime_strftime.
  - now apply strptime_strftime_early.
Qed.

Lemma parse_date_strftime_witness :
  PyDate.valid (PyDate.mkdate 2024 2 29) = true
  /\ parse_date (PyText (PyDate.strftime_Ymd (PyDate.mkdate 2024 2 29)))
     = Some (PyDate.mkdate 2024 2 29).
Proof.
  split; [reflexivity|].
  apply (parse_date_strftime (PyDate.mkdate 2024 2 29)); [reflexivity|].
  cbn [PyDate.year]. lia.
Defined.

(** ** Loading *)

Lemma filter_all_true_in {A} (p : A -> bool) (l : list A) :
  (forall x, In x l -> p x = true) -> List.filter p l = l.
Proof.
  induction l as [|x l IH]; simpl; intros H; [reflexivity|].
  rewrite (H x) by now left. f_equal. apply IH. intros y Hy. apply H. now right.
Qed.

Lemma filter_none {A} (p : A -> bool) (l : list A) :
  (forall x, In x l -> p x = false) -> List.filter p l = [].
Proof.
  induction l as [|x l IH]; simpl; intros H; [reflexivity|].
  rewrite (H x) by now left. apply IH. intros y Hy. apply H. now right.
Qed.

Lemma from_csv_row_one_of (row : gmap string pyval) :
  (exists x, from_csv_row row = (Some x, []))
  \/ (exists w, from_csv_row row = (None, [w])).
Proof.
  rewrite from_csv_row_cases.
  destruct (date_of row) as [d|]; [|right; eauto].
  destruct (build d row) as [x|]; [left|right]; eauto.
Qed.

Lemma load_rows_loop (rs : list (gmap string pyval))
    (acc : list Tournament.t) (out : list message) :
  fold_left
    (fun '(tournaments, printed) row =>
       let '(t, o) := from_csv_row row in
       let printed := printed ++ map RowWarning o in
       match t with
       | Some x => (tournaments ++ [x], printed)
       | None => (tournaments, printed)
       end)
    rs (acc, out)
  = (acc ++ omap (fun row => fst (from_csv_row row)) rs,
     out ++ map RowWarning (concat (map (fun row => snd (from_csv_row row)) rs))).
Proof.
  revert acc out. induction rs as [|row rs IH]; intros acc out; simpl.
  - now rewrite !app_nil_r.
  - destruct (from_csv_row row) as [[x|] o] eqn:E; simpl; rewrite IH;
      rewrite map_app, <- !app_assoc; reflexivity.
Qed.

Lemma load_rows_eq (rs : list (gmap string pyval)) :
  load_rows rs
  = (omap (fun row => fst (from_csv_row row)) rs,
     map RowWarning (concat (map (fun row => snd (from_csv_row row)) rs))).
Proof. unfold load_rows. now rewrite load_rows_loop. Qed.

Lemma load_rows_count (rs : list (gmap string pyval)) :
  (List.length (fst (load_rows rs)) + List.length (snd (load_rows rs)) = List.length rs)%nat.
Proof.
  rewrite load_rows_eq. simpl. rewrite length_map. unfold omap.
  induction rs as [|row rs IH]; simpl; [reflexivity|].
  destruct (from_csv_row_one_of row) as [[x E]|[w E]]; rewrite E; simpl; lia.
Qed.

(** X2: [load_tournaments] raises [FileNotFoundError] for a missing file and
    a [TypeError] for a file without a header line; otherwise it returns the
    records of the rows that [from_csv_row] accepts, in the order of the
    file, and every row is either loaded or reported by exactly one warning:
    the records and the row warnings add up to the rows. *)
Theorem load_tournaments_accounts_for_every_row :
  load_tournaments None = FileNotFound
  /\ (forall rs, load_tournaments (Some (mk_csv None rs)) = HeaderTypeError)
  /\ (forall names rs,
        exists ts printed,
          load_tournaments (Some (mk_csv (Some names) rs)) = Loaded ts printed
          /\ ts = omap (fun row => fst (from_csv_row row)) rs
          /\ (List.length ts + List.length (List.filter is_row_warning printed)
              = List.length rs)%nat
          /\ (forallb (contains names) CSV_HEADERS = true ->
              List.filter is_row_warning printed = printed)).
Proof.
  split; [reflexivity|]. split; [reflexivity|].
  intros names rs. unfold load_tournaments. cbn [fieldnames rows].
  pose proof (load_rows_count rs) as Hc.
  pose proof (load_rows_eq rs) as He.
  destruct (load_rows rs) as [ts printed] eqn:E. simpl in Hc.
  injection He as Hts Hpr.
  assert (Hall : List.filter is_row_warning printed = printed).
  { rewrite Hpr. apply filter_all_true_in. intros m Hm.
    apply in_map_iff in Hm as (w & <- & _). reflexivity. }
  eexists. eexists. split; [reflexivity|]. split; [exact Hts|]. split.
  - rewrite List.filter_app, length_app, Hall.
    destruct (PyParse.is_nil _); simpl; lia.
  - intros Hh.
    assert (Hm : List.filter (fun h => negb (contains names h)) CSV_HEADERS = []).
    { apply filter_none. intros h Hin.
      rewrite forallb_forall in Hh. now rewrite (Hh h Hin). }
    rewrite Hm. simpl. exact Hall.
Qed.

(** ** Sorting by date *)

Lemma date_le_trans (a b c : PyDate.date) : date_le a b -> date_le b c -> date_le a c.
Proof. unfold date_le. lia. Qed.

Lemma date_ltb_le (a b : PyDate.date) : PyDate.ltb a b = true -> date_le a b.
Proof.
  unfold PyDate.ltb, PyDate.compare, date_le.
  destruct (Z.compare_spec (PyDate.year a) (PyDate.year b));
    [destruct (Z.compare_spec (PyDate.month a) (PyDate.month b));
       [destruct (Z.compare_spec (PyDate.day a) (PyDate.day b))| |]| |];
    intros; try discriminate; lia.
Qed.

Lemma date_compare_eq (a b : PyDate.date) : PyDate.compare a b = Eq -> a = b.
Proof.
  destruct a as [y m d], b as [y' m' d']. unfold PyDate.compare. simpl.
  destruct (Z.compare_spec y y'); try discriminate.
  destruct (Z.compare_spec m m'); try discriminate.
  destruct (Z.compare_spec d d'); try discriminate.
  intros _. congruence.
Qed.

Lemma insert_by_date_perm (x : Tournament.t) (l : list Tournament.t) :
  Permutation (insert_by_date x l) (x :: l).
Proof.
  induction l as [|y l IH]; simpl; [reflexivity|].
  destruct (PyDate.ltb _ _); [|reflexivity].
  rewrite IH. apply perm_swap.
Qed.

Lemma sort_by_date_perm (l : list Tournament.t) : Permutation (sort_by_date l) l.
Proof.
  induction l as [|x l IH]; simpl; [reflexivity|].
  rewrite insert_by_date_perm. now constructor.
Qed.

Lemma insert_by_date_sorted (x : Tournament.t) (l : list Tournament.t) :
  date_sorted l -> date_sorted (insert_by_date x l).
Proof.
  unfold date_sorted. induction 1 as [|y l Hl IH Hy]; simpl.
  - repeat constructor.
  - destruct (PyDate.ltb (Tournament.date y) (Tournament.date x)) eqn:E.
    + constructor; [exact IH|].
      apply (Permutation_Forall (x := x :: l)).
      * symmetry. apply insert_by_date_perm.
      * constructor; [|exact Hy]. now apply date_ltb_le.
    + apply date_ltb_false in E.
      constructor; [now constructor|].
      constructor; [exact E|].
      eapply List.Forall_impl; [|exact Hy].
      intros z Hz. eapply date_le_trans; eassumption.
Qed.

Lemma sort_by_date_sorted (l : list Tournament.t) : date_sorted (sort_by_date l).
Proof.
  induction l as [|x l IH]; simpl; [constructor|].
  now apply insert_by_date_sorted.
Qed.

Lemma insert_by_date_same_date (d : PyDate.date) (x : Tournament.t) (l : list Tournament.t) :
  List.filter (same_date d) (insert_by_date x l)
  = if same_date d x then x :: List.filter (same_date d) l
    else List.filter (same_date d) l.
Proof.
  induction l as [|y l IH]; simpl; [reflexivity|].
  destruct (PyDate.ltb (Tournament.date y) (Tournament.date x)) eqn:E; simpl;
    [|reflexivity].
  rewrite IH. destruct (same_date d x) eqn:Hx; [|reflexivity].
  assert (Hy : same_date d y = false).
  { unfold same_date in *.
    destruct (PyDate.compare (Tournament.date x) d) eqn:C; try discriminate.
    apply date_compare_eq in C. subst d.
    unfold PyDate.ltb in E.
    destruct (PyDate.compare (Tournament.date y) (Tournament.date x)); congruence. }
  now rewrite Hy.
Qed.

(** X3: the sort by date used by [graph] and [details] returns the records
    of its input, each as often as in the input, in ascending order of date,
    and it is stable: the records of any one date keep the order they had. *)
Theorem sort_by_date_stable_sort :
  forall l : list Tournament.t,
    Permutation (sort_by_date l) l
    /\ StronglySorted (fun a b => date_le (Tournament.date a) (Tournament.date b))
         (sort_by_date l)
    /\ (forall d : PyDate.date,
          List.filter (fun t => bool_decide (Tournament.date t = d)) (sort_by_date l)
          = List.filter (fun t => bool_decide (Tournament.date t = d)) l).
Proof.
  intros l. split; [apply sort_by_date_perm|]. split; [apply sort_by_date_sorted|].
  intros d.
  assert (E : forall t, bool_decide (Tournament.date t = d) = same_date d t).
  { intros t. unfold same_date.
    destruct (PyDate.compare (Tournament.date t) d) eqn:C.
    - apply date_compare_eq in C. now apply bool_decide_eq_true.
    - apply bool_decide_eq_false. intros Heq. rewrite Heq in C.
      unfold PyDate.compare in C. rewrite !Z.compare_refl in C. discriminate.
    - apply bool_decide_eq_false. intros Heq. rewrite Heq in C.
      unfold PyDate.compare in C. rewrite !Z.compare_refl in C. discriminate. }
  rewrite !(filter_ext _ _ E).
  induction l as [|x l IH]; simpl; [reflexivity|].
  rewrite insert_by_date_same_date, IH. reflexivity.
Qed.

(** ** The series of [graph] and the rows of [details] *)

Lemma cumulative_loop_state (metric : string) (ts : list Tournament.t)
    (c : spec_float) (xs : list PyDate.date) (ys : list spec_float) :
  snd
    (fold_left
       (fun '(cumulative, (x_dates, y_values)) t =>
          let tournament_profit := Tournament.profit t in
          let cumulative :=
            if String.eqb metric "profit"
            then PyFloat.add cumulative tournament_profit
            else PyFloat.add cumulative tournament_profit in
          (cumulative, (x_dates ++ [Tournament.date t], y_values ++ [cumulative])))
       ts (c, (xs, ys)))
  = (xs ++ map Tournament.date ts, ys ++ running_sums c (map Tournament.profit ts)).
Proof.
  revert c xs ys. induction ts as [|t ts IH]; intros c xs ys; simpl.
  - now rewrite !app_nil_r.
  - destruct (String.eqb metric "profit"); rewrite IH, <- !app_assoc; reflexivity.
Qed.

Lemma cumulative_loop_eq (metric : string) (c : spec_float) (ts : list Tournament.t) :
  cumulative_loop metric c ts
  = (map Tournament.date ts, running_sums c (map Tournament.profit ts)).
Proof. unfold cumulative_loop. now rewrite cumulative_loop_state. Qed.

Lemma running_sums_length (c : spec_float) (xs : list spec_float) :
  List.length (running_sums c xs) = List.length xs.
Proof. revert c. induction xs as [|x xs IH]; intros c; simpl; [reflexivity|now rewrite IH]. Qed.

Lemma sorted_dates (l : list Tournament.t) :
  date_sorted l -> StronglySorted date_le (map Tournament.date l).
Proof.
  unfold date_sorted. induction 1 as [|x l Hl IH Hx]; simpl; constructor; [exact IH|].
  rewrite List.Forall_forall in *. intros d Hd.
  apply in_map_iff in Hd as (y & <- & Hy). now apply Hx.
Qed.

(** X4: on a non-empty selection [graph] plots one point per record, in
    ascending order of date; the values are the running sums of the profits
    of the records in that order, starting from 0.0 with metric "profit"
    (whatever the start bankroll) and from the start bankroll with metric
    "bankroll".  Metric "bankroll" without a start bankroll, any other
    metric, and an empty selection plot nothing. *)
Theorem graph_series_running_sums :
  forall (metric : string) (start : option spec_float) (t : Tournament.t)
         (ts : list Tournament.t),
    let sorted := sort_by_date (t :: ts) in
    let dates := map Tournament.date sorted in
    let profits := map Tournament.profit sorted in
    graph_series "profit" start (t :: ts)
      = GraphPlot dates (running_sums PyFloat.zero profits)
    /\ (forall b : spec_float,
          graph_series "bankroll" (Some b) (t :: ts) = GraphPlot dates (running_sums b profits)
          /\ List.length (running_sums b profits) = S (List.length ts))
    /\ List.length dates = S (List.length ts)
    /\ StronglySorted date_le dates
    /\ graph_series "bankroll" None (t :: ts) = GraphNeedsStart
    /\ (metric <> "profit" -> metric <> "bankroll" ->
        graph_series metric start (t :: ts) = GraphBadMetric)
    /\ graph_series metric start [] = GraphNothingFound.
Proof.
  intros metric start t ts sorted dates profits.
  assert (Hlen : List.length sorted = S (List.length ts)).
  { unfold sorted. rewrite (Permutation_length (sort_by_date_perm (t :: ts))). reflexivity. }
  split; [|split; [|split; [|split; [|split; [|split]]]]].
  - unfold graph_series. cbn [PyParse.is_nil]. fold sorted.
    change (String.eqb "profit" "profit") with true.
    change (String.eqb "profit" "bankroll") with false.
    cbn [orb negb]. now rewrite cumulative_loop_eq.
  - intros b. split.
    + unfold graph_series. cbn [PyParse.is_nil]. fold sorted.
      change (String.eqb "bankroll" "profit") with false.
      change (String.eqb "bankroll" "bankroll") with true.
      cbn [orb negb]. now rewrite cumulative_loop_eq.
    + unfold profits. now rewrite running_sums_length, length_map.
  - unfold dates. now rewrite length_map.
  - apply sorted_dates, sort_by_date_sorted.
  - reflexivity.
  - intros H1 H2. unfold graph_series. cbn [PyParse.is_nil].
    apply String.eqb_neq in H1, H2. now rewrite H1, H2.
  - reflexivity.
Qed.

(** X5: [details] lists nothing for an empty selection; otherwise it lists
    the records in ascending order of date, all of them without a limit or
    with a limit that is not positive, and only the first [limit] of them
    with a positive limit. *)
Theorem details_rows_limit :
  forall (limit : option Z) (t : Tournament.t) (ts : list Tournament.t),
    let sorted := sort_by_date (t :: ts) in
    let n := Z.of_nat (S (List.length ts)) in
    details_rows limit [] = None
    /\ exists rows rest : list Tournament.t,
         details_rows limit (t :: ts) = Some rows
         /\ sorted = rows ++ rest
         /\ Z.of_nat (List.length rows)
            = match limit with
              | Some k => if (0 <? k)%Z then Z.min k n else n
              | None => n
              end.
Proof.
  intros limit t ts sorted n. split; [reflexivity|].
  assert (Hlen : List.length sorted = S (List.length ts)).
  { unfold sorted. rewrite (Permutation_length (sort_by_date_perm (t :: ts))). reflexivity. }
  unfold details_rows. cbn [PyParse.is_nil]. fold sorted.
  destruct limit as [k|]; [destruct (0 <? k)%Z eqn:Hk|].
  - exists (firstn (Z.to_nat k) sorted), (skipn (Z.to_nat k) sorted).
    split; [reflexivity|]. split; [now rewrite firstn_skipn|].
    rewrite length_firstn, Hlen. apply Z.ltb_lt in Hk. unfold n. lia.
  - exists sorted, []. split; [reflexivity|]. split; [now rewrite app_nil_r|].
    rewrite Hlen. reflexivity.
  - exists sorted, []. split; [reflexivity|]. split; [now rewrite app_nil_r|].
    rewrite Hlen. reflexivity.
Qed.

(** ** The record of [add] *)

Lemma ascii_forall1 (P : ascii -> bool) :
  forallb P all_ascii = true -> forall a, P a = true.
Proof. intros H a. rewrite forallb_forall in H. apply H, in_all_ascii. Qed.

Lemma upper_char_idem (a : ascii) : PyStr.upper_char (PyStr.upper_char a) = PyStr.upper_char a.
Proof.
  pose proof (ascii_forall1
    (fun a => Ascii.eqb (PyStr.upper_char (PyStr.upper_char a)) (PyStr.upper_char a))) as H.
  apply Ascii.eqb_eq, H. vm_compute. reflexivity.
Qed.

Lemma upper_idem (s : string) : PyStr.upper (PyStr.upper s) = PyStr.upper s.
Proof. induction s as [|a s IH]; simpl; [reflexivity|]. now rewrite upper_char_idem, IH. Qed.

Lemma upper_nonempty (s : string) : s <> "" -> PyStr.upper s <> "".
Proof. destruct s; simpl; [tauto | discriminate]. Qed.

Lemma opt_or_nonempty (v : option string) (d : string) : d <> "" -> opt_or v d <> "".
Proof. intros H. destruct v as [s|]; simpl; [now apply or_else_nonempty | exact H]. Qed.

Lemma add_date_none (date : option string) (today : PyDate.date) :
  add_date date today = None
  <-> exists s : string, date = Some s /\ s <> "" /\ PyDate.strptime_Ymd s = None.
Proof.
  unfold add_date. split.
  - destruct date as [s|]; [|discriminate].
    destruct s as [|c s]; [discriminate|]. cbn [PyStr.truthy].
    intros H. exists (String c s). repeat split; [discriminate | exact H].
  - intros (s & -> & Hs & H). destruct s as [|c s]; [contradiction|]. exact H.
Qed.

(** X6: [add] appends nothing exactly when its date option is a non-empty
    text that is no date: in that case and in no other.  The record it
    appends has a non-empty room and format, a non-empty currency in upper
    case, the name given, the date of the date option when that is a date,
    and today's date when the date option is absent or empty. *)
Theorem added_record_defaults :
  forall (args : AddArgs.t) (today : PyDate.date),
    (added_record args today = None
     <-> exists s : string,
           AddArgs.date args = Some s /\ s <> "" /\ PyDate.strptime_Ymd s = None)
    /\ match added_record args today with
       | Some t =>
           Tournament.room t <> ""
           /\ Tournament.format t <> ""
           /\ Tournament.currency t <> ""
           /\ PyStr.upper (Tournament.currency t) = Tournament.currency t
           /\ Tournament.name t = AddArgs.name args
           /\ (AddArgs.date args = None \/ AddArgs.date args = Some "" ->
               Tournament.date t = today)
           /\ (forall (s : string) (d : PyDate.date),
                 AddArgs.date args = Some s -> PyDate.strptime_Ymd s = Some d ->
                 Tournament.date t = d)
           /\ (AddArgs.room args = None -> Tournament.room t = "PokerOK")
           /\ (AddArgs.currency args = None -> Tournament.currency t = "USD")
           /\ (AddArgs.format args = None -> Tournament.format t = "MTT")
       | None =>
           exists s : string,
             AddArgs.date args = Some s /\ s <> "" /\ PyDate.strptime_Ymd s = None
       end.
Proof.
  intros args today. split.
  { rewrite <- (add_date_none (AddArgs.date args) today). unfold added_record.
    destruct (add_date (AddArgs.date args) today); cbn [mbind option_bind];
      split; congruence. }
  unfold added_record.
  destruct (add_date (AddArgs.date args) today) as [d|] eqn:Hd; cbn [mbind option_bind].
  - cbn [Tournament.room Tournament.format Tournament.currency Tournament.name Tournament.date].
    split; [apply opt_or_nonempty; discriminate|].
    split; [apply opt_or_nonempty; discriminate|].
    split; [apply upper_nonempty, opt_or_nonempty; discriminate|].
    split; [apply upper_idem|]. split; [reflexivity|].
    split; [|split; [|split; [|split]]].
    + unfold add_date in Hd. intros [E|E]; rewrite E in Hd; simpl in Hd; congruence.
    + intros s d' E Hs. unfold add_date in Hd. rewrite E in Hd.
      destruct s as [|c s]; [discriminate Hs|].
      cbn [PyStr.truthy] in Hd. congruence.
    + intros ->. reflexivity.
    + intros ->. reflexivity.
    + intros ->. reflexivity.
  - now apply add_date_none in Hd.
Qed.

Example added_record_example :
  added_record sample_add (PyDate.mkdate 2024 3 1)
  = Some (Tournament.mk (PyDate.mkdate 2024 2 29) "PokerOK" "Sunday Special"
            (PyFloat.of_Z 11) PyFloat.zero "EUR" PyFloat.zero 3 0 "MTT" "").
Proof. vm_compute. reflexivity. Qed.

(** ** The tables of [summary] *)

Lemma calc_summary_stats_value (ts : list Tournament.t) :
  calc_summary_stats ts = Some (stats_value ts).
Proof. apply calc_summary_stats_eq. Qed.

Lemma stats_of_groups_eq (g : groups) : stats_of_groups g = Some (table_of g).
Proof.
  induction g as [|[k ts] g IH]; simpl; [reflexivity|].
  rewrite calc_summary_stats_value, IH. reflexivity.
Qed.

Lemma weight_sum_app (f : Tournament.t -> Z) (a b : list Tournament.t) :
  weight_sum f (a ++ b) = (weight_sum f a + weight_sum f b)%Z.
Proof.
  unfold weight_sum. induction a as [|x a IH]; simpl; [reflexivity|].
  rewrite IH. lia.
Qed.

Lemma weight_sum_perm (f : Tournament.t -> Z) (a b : list Tournament.t) :
  Permutation a b -> weight_sum f a = weight_sum f b.
Proof.
  unfold weight_sum. induction 1; simpl; lia.
Qed.

Lemma groups_weight_perm (f : Tournament.t -> Z) (g h : groups) :
  Permutation g h -> groups_weight f g = groups_weight f h.
Proof.
  unfold groups_weight. induction 1; simpl; lia.
Qed.

Lemma weight_sum_one (l : list Tournament.t) : weight_sum one l = Z.of_nat (List.length l).
Proof.
  unfold weight_sum, one. induction l as [|x l IH]; simpl List.length; simpl; [reflexivity|].
  rewrite IH. lia.
Qed.

Lemma weight_sum_itm (l : list Tournament.t) : weight_sum itm_one l = itm_count l.
Proof.
  unfold weight_sum, itm_one, itm_count. induction l as [|x l IH]; [reflexivity|].
  cbn [map fold_right List.filter]. rewrite IH.
  destruct (PyFloat.gtb (Tournament.result x) PyFloat.zero); cbn [List.length]; lia.
Qed.

Lemma groups_weight_dict_append (f : Tournament.t -> Z) (k : string)
    (t : Tournament.t) (g : groups) :
  groups_weight f (dict_append k t g) = (groups_weight f g + f t)%Z.
Proof.
  unfold groups_weight. induction g as [|[k' ts] g IH]; simpl.
  - unfold weight_sum. simpl. lia.
  - destruct (String.eqb k' k); simpl.
    + rewrite weight_sum_app. unfold weight_sum at 2. simpl. lia.
    + rewrite IH. lia.
Qed.

Lemma groups_weight_grouped (f : Tournament.t -> Z) (key : Tournament.t -> string)
    (ts : list Tournament.t) :
  groups_weight f (grouped key ts) = weight_sum f ts.
Proof.
  induction ts as [|t ts IH] using rev_ind; [reflexivity|].
  rewrite <- grouped_snoc, groups_weight_dict_append, IH, weight_sum_app.
  unfold weight_sum at 3. simpl. lia.
Qed.

Lemma groups_weight_shown (f : Tournament.t -> Z) (g : groups) :
  groups_weight f (shown_buckets g) = groups_weight f g.
Proof.
  unfold groups_weight, shown_buckets. induction g as [|[k ts] g IH]; simpl; [reflexivity|].
  destruct ts as [|x ts]; simpl; rewrite IH; reflexivity.
Qed.

Lemma groups_weight_buyin (f : Tournament.t -> Z) (ts : list Tournament.t) :
  groups_weight f (group_by_buyin_range ts) = weight_sum f ts.
Proof.
  unfold group_by_buyin_range. rewrite buyin_loop. unfold groups_weight. simpl.
  rewrite Z.add_0_r, !Z.add_assoc, <- !weight_sum_app, <- !app_assoc.
  apply weight_sum_perm. unfold with_key.
  apply (four_way_split buyin_key); try discriminate.
  intros x. apply buyin_label_values.
Qed.

Lemma table_total_of (g : groups) : table_total (table_of g) = groups_weight one g.
Proof.
  unfold table_total, table_of, groups_weight. rewrite map_map. f_equal.
  apply map_ext. intros [k ts]. simpl. now rewrite weight_sum_one.
Qed.

Lemma table_itm_of (g : groups) : table_itm (table_of g) = groups_weight itm_one g.
Proof.
  unfold table_itm, table_of, groups_weight. rewrite map_map. f_equal.
  apply map_ext. intros [k ts]. simpl. now rewrite weight_sum_itm.
Qed.

Lemma grouped_nonempty (key : Tournament.t -> string) (ts : list Tournament.t) :
  Forall (fun kv : string * list Tournament.t => snd kv <> []) (grouped key ts).
Proof.
  unfold grouped. apply List.Forall_forall. intros kv Hin.
  apply in_map_iff in Hin as (k & <- & Hk). simpl.
  apply first_seen_In, in_map_iff in Hk as (t & Ht & Hin).
  intros E. assert (Hw : In t (with_key key k ts)).
  { unfold with_key. apply filter_In. split; [exact Hin|]. now apply String.eqb_eq. }
  rewrite E in Hw. destruct Hw.
Qed.

Lemma table_of_counts (g : groups) :
  Forall (fun kv : string * list Tournament.t => snd kv <> []) g ->
  Forall (fun kv : string * Stats.t => (1 <= Stats.total (snd kv))%Z) (table_of g).
Proof.
  unfold table_of. intros H. apply List.Forall_forall. intros kv Hin.
  apply in_map_iff in Hin as ([k ts] & <- & Hk). simpl.
  rewrite List.Forall_forall in H. specialize (H _ Hk). simpl in H.
  destruct ts; [contradiction|]. simpl List.length. lia.
Qed.

Lemma shown_buckets_nonempty (g : groups) :
  Forall (fun kv : string * list Tournament.t => snd kv <> []) (shown_buckets g).
Proof.
  unfold shown_buckets. apply List.Forall_forall. intros [k ts] Hin.
  apply filter_In in Hin as [_ H]. simpl in *. destruct ts; [discriminate|discriminate].
Qed.

(** X7: [summary] reports nothing for an empty selection and never fails
    on a non-empty one.  In its report the counts of the groups of each table
    (by format, by buy-in range with the empty ranges left out, and by time
    when a time mode is chosen) add up to the overall count, their ITM counts
    add up to the overall ITM count, and no group listed is empty. *)
Theorem summary_tables_add_up :
  forall (show_by : string) (t : Tournament.t) (ts : list Tournament.t),
    summary_tables show_by [] = SummaryNothingFound
    /\ exists r : Summary.t,
         summary_tables show_by (t :: ts) = SummaryReport r
         /\ Stats.total (Summary.overall r) = Z.of_nat (S (List.length ts))
         /\ table_total (Summary.by_format r) = Stats.total (Summary.overall r)
         /\ table_itm (Summary.by_format r) = Stats.total_itm (Summary.overall r)
         /\ table_total (Summary.by_buyin r) = Stats.total (Summary.overall r)
         /\ table_itm (Summary.by_buyin r) = Stats.total_itm (Summary.overall r)
         /\ (if String.eqb show_by "none" then Summary.by_time r = []
             else table_total (Summary.by_time r) = Stats.total (Summary.overall r)
                  /\ table_itm (Summary.by_time r) = Stats.total_itm (Summary.overall r))
         /\ Forall (fun kv : string * Stats.t => (1 <= Stats.total (snd kv))%Z)
              (Summary.by_format r ++ Summary.by_buyin r ++ Summary.by_time r).
Proof.
  intros show_by t ts. split; [reflexivity|].
  set (l := t :: ts).
  unfold summary_tables. cbn [PyParse.is_nil l].
  rewrite calc_summary_stats_value, !stats_of_groups_eq. cbn [mbind option_bind].
  assert (Hfmt : group_by_format l = grouped format_key l) by apply grouping_loop.
  destruct (String.eqb show_by "none") eqn:Hmode; cbn [negb mbind option_bind];
    eexists; (split; [reflexivity|]);
    cbn [Summary.overall Summary.by_format Summary.by_buyin Summary.by_time
         stats_value Stats.total Stats.total_itm];
    rewrite !table_total_of, !table_itm_of, !groups_weight_shown, !groups_weight_buyin,
      Hfmt, !groups_weight_grouped, !weight_sum_one, !weight_sum_itm.
  - repeat split.
    rewrite app_nil_r. apply Forall_app. split.
    + apply table_of_counts, grouped_nonempty.
    + apply table_of_counts, shown_buckets_nonempty.
  - apply String.eqb_neq in Hmode.
    rewrite (group_by_time_sorted l show_by Hmode).
    rewrite !(groups_weight_perm _ _ _ (py_sorted_perm _)), !groups_weight_grouped,
      weight_sum_one, weight_sum_itm.
    repeat split.
    apply Forall_app. split; [|apply Forall_app; split].
    + apply table_of_counts, grouped_nonempty.
    + apply table_of_counts, shown_buckets_nonempty.
    + apply table_of_counts.
      apply (Permutation_Forall (x := grouped (time_key show_by) l)).
      * symmetry. apply py_sorted_perm.
      * apply grouped_nonempty.
Qed.

(** ** Composing filters *)

Lemma filter_comm' {A} (p q : A -> bool) (l : list A) :
  List.filter p (List.filter q l) = List.filter q (List.filter p l).
Proof.
  induction l as [|x l IH]; simpl; [reflexivity|].
  destruct (p x) eqn:P, (q x) eqn:Q; simpl; rewrite ?P, ?Q, IH; reflexivity.
Qed.

Lemma run_filter_filter (ts : list Tournament.t) (c : Criteria.t) :
  run_filter ts c
  = List.filter (passes (Criteria.from_date c) (Criteria.to_date c) (Criteria.room c)
                   (Criteria.format_ c) (Criteria.currency c)) ts.
Proof. unfold run_filter. apply filter_tournaments_filter. Qed.

(** X8: filtering by one set of criteria and then by another keeps exactly
    the records that each of the two filters keeps on its own, whatever the
    order of the two filters; filtering distributes over the concatenation
    of two ledgers, and it never returns more records than it was given. *)
Theorem filter_tournaments_composes :
  forall (ts us : list Tournament.t) (c1 c2 : Criteria.t),
    run_filter (run_filter ts c1) c2 = run_filter (run_filter ts c2) c1
    /\ (forall x : Tournament.t,
          In x (run_filter (run_filter ts c1) c2)
          <-> In x (run_filter ts c1) /\ In x (run_filter ts c2))
    /\ run_filter (ts ++ us) c1 = run_filter ts c1 ++ run_filter us c1
    /\ (List.length (run_filter ts c1) <= List.length ts)%nat.
Proof.
  intros ts us c1 c2. rewrite !run_filter_filter. split; [apply filter_comm'|].
  split; [|split].
  - intros x. rewrite !filter_In. tauto.
  - apply List.filter_app.
  - apply filter_length_le.
Qed.

(** ** White space around the cells *)

Lemma rstrip_cons_nonspace (c : ascii) (r : string) :
  PyStr.is_space c = false -> PyStr.rstrip (String c r) = String c (PyStr.rstrip r).
Proof. intros H. simpl. rewrite H. now destruct (PyStr.rstrip r). Qed.

Lemma rstrip_idem (s : string) : PyStr.rstrip (PyStr.rstrip s) = PyStr.rstrip s.
Proof.
  induction s as [|c r IH]; [reflexivity|].
  cbn [PyStr.rstrip]. destruct (PyStr.rstrip r) as [|c' r'] eqn:E.
  - destruct (PyStr.is_space c) eqn:Hc; [reflexivity|].
    simpl. now rewrite Hc.
  - cbn [PyStr.rstrip] in *. destruct (PyStr.rstrip r') eqn:E'.
    + destruct (PyStr.is_space c'); [discriminate|]. now rewrite IH.
    + now rewrite IH.
Qed.

Lemma lstrip_head (s : string) (c : ascii) (r : string) :
  PyStr.lstrip s = String c r -> PyStr.is_space c = false.
Proof.
  induction s as [|a s IH]; simpl; [discriminate|].
  destruct (PyStr.is_space a) eqn:Ha; [exact IH|].
  intros [= -> _]. exact Ha.
Qed.

Lemma strip_idem (s : string) : PyStr.strip (PyStr.strip s) = PyStr.strip s.
Proof.
  unfold PyStr.strip. destruct (PyStr.lstrip s) as [|c r] eqn:E; [reflexivity|].
  pose proof (lstrip_head _ _ _ E) as Hc.
  rewrite (rstrip_cons_nonspace c r Hc).
  cbn [PyStr.lstrip]. rewrite Hc.
  rewrite (rstrip_cons_nonspace c _ Hc). now rewrite rstrip_idem.
Qed.

Lemma has_text_stripped (row : gmap string pyval) (key : string) :
  has_text (stripped_cell <$> row) key = has_text row key.
Proof. unfold has_text. rewrite lookup_fmap. now destruct (row !! key) as [[s|]|]. Qed.

Lemma text_of_stripped (row : gmap string pyval) (key default : string) :
  PyStr.strip (text_of (stripped_cell <$> row) key default)
  = PyStr.strip (text_of row key default).
Proof.
  unfold text_of. rewrite lookup_fmap.
  destruct (row !! key) as [[s|]|]; simpl; [apply strip_idem | reflexivity | reflexivity].
Qed.

Lemma to_float_stripped (row : gmap string pyval) (key default : string) :
  to_float (text_of (stripped_cell <$> row) key default) = to_float (text_of row key default).
Proof. unfold to_float. now rewrite text_of_stripped. Qed.

Lemma to_int_stripped (row : gmap string pyval) (key default : string) :
  to_int (text_of (stripped_cell <$> row) key default) = to_int (text_of row key default).
Proof. unfold to_int. now rewrite text_of_stripped. Qed.

Lemma record_of_stripped (d : PyDate.date) (row : gmap string pyval) :
  record_of d (stripped_cell <$> row) = record_of d row.
Proof.
  unfold record_of.
  now rewrite !text_of_stripped, !to_float_stripped, !to_int_stripped.
Qed.

(** X9: white space around the cells of a row does not matter to
    [from_csv_row], the date cell apart (it is parsed as it stands):
    stripping every cell of a row whose date cell has no white space around
    it changes neither the result nor the warnings. *)
Theorem from_csv_row_ignores_spaces :
  forall row : gmap string pyval,
    (stripped_cell <$> row) !! "date" = row !! "date" ->
    from_csv_row (stripped_cell <$> row) = from_csv_row row.
Proof.
  intros row Hdate. rewrite !from_csv_row_cases.
  unfold date_of, get_date. rewrite Hdate.
  destruct (row !! "date" ≫= parse_date) as [d|]; [|reflexivity].
  rewrite !build_cases, record_of_stripped.
  cbn [forallb record_columns]. now rewrite !has_text_stripped.
Qed.

Lemma from_csv_row_ignores_spaces_witness :
  (stripped_cell <$> sample_row) !! "date" = sample_row !! "date"
  /\ from_csv_row (stripped_cell <$> sample_row) = from_csv_row sample_row.
Proof.
  assert (H : (stripped_cell <$> sample_row) !! "date" = sample_row !! "date")
    by (vm_compute; reflexivity).
  split; [exact H|]. exact (from_csv_row_ignores_spaces sample_row H).
Defined.

(** ** Statistics of two ledgers put together *)

Lemma itm_count_app (a b : list Tournament.t) :
  itm_count (a ++ b) = (itm_count a + itm_count b)%Z.
Proof. unfold itm_count. rewrite List.filter_app, length_app. lia. Qed.

Lemma itm_count_bounds (a : list Tournament.t) :
  (0 <= itm_count a <= Z.of_nat (List.length a))%Z.
Proof.
  unfold itm_count. split; [lia|].
  apply Nat2Z.inj_le. apply filter_length_le.
Qed.

Lemma py_sum_float_app (xs ys : list spec_float) :
  py_sum_float (xs ++ ys) = fold_left PyFloat.add ys (py_sum_float xs).
Proof. unfold py_sum_float. apply fold_left_app. Qed.

(** X10: in the statistics of any list the ITM count lies between 0 and
    the count.  The statistics of two lists put end to end have the sum of
    the two counts and the sum of the two ITM counts, and each of their three
    money totals is the total of the first list with the amounts of the
    second added to it one after the other. *)
Theorem calc_summary_stats_of_concatenation :
  forall a b : list Tournament.t,
    exists sa sb sab : Stats.t,
      calc_summary_stats a = Some sa
      /\ calc_summary_stats b = Some sb
      /\ calc_summary_stats (a ++ b) = Some sab
      /\ (0 <= Stats.total_itm sa <= Stats.total sa)%Z
      /\ Stats.total sab = (Stats.total sa + Stats.total sb)%Z
      /\ Stats.total_itm sab = (Stats.total_itm sa + Stats.total_itm sb)%Z
      /\ Stats.total_buy_in sab
         = fold_left PyFloat.add (map Tournament.buy_in b) (Stats.total_buy_in sa)
      /\ Stats.total_rake sab
         = fold_left PyFloat.add (map Tournament.rake b) (Stats.total_rake sa)
      /\ Stats.total_result sab
         = fold_left PyFloat.add (map Tournament.result b) (Stats.total_result sa).
Proof.
  intros a b. exists (stats_value a), (stats_value b), (stats_value (a ++ b)).
  rewrite !calc_summary_stats_value.
  cbn [stats_value Stats.total Stats.total_itm Stats.total_buy_in Stats.total_rake
       Stats.total_result].
  rewrite !map_app, !py_sum_float_app, itm_count_app, length_app.
  repeat split; try reflexivity; try apply itm_count_bounds. lia.
Qed.

(** ** Date windows *)

Lemma date_le_antisym (a b : PyDate.date) : date_le a b -> date_le b a -> a = b.
Proof.
  destruct a as [y m d], b as [y' m' d']. unfold date_le. simpl.
  intros H1 H2. assert (y = y' /\ m = m' /\ d = d') as (-> & -> & ->) by lia.
  reflexivity.
Qed.

Lemma date_le_refl (a : PyDate.date) : date_le a a.
Proof. unfold date_le. lia. Qed.

Lemma filter_tournaments_In (ts : list Tournament.t)
    (f t : option PyDate.date) (r fm c : option string) (x : Tournament.t) :
  In x (filter_tournaments ts f t r fm c)
  <-> In x ts /\ selected (Criteria.mk f t r fm c) x.
Proof.
  rewrite filter_tournaments_filter, filter_In.
  now rewrite <- (passes_selected (Criteria.mk f t r fm c) x).
Qed.

(** X11: with both bounds set to one date, the filter keeps exactly the
    records of that date (that meet the other criteria); with an upper bound
    earlier than the lower bound it keeps nothing. *)
Theorem filter_tournaments_date_window :
  forall (ts : list Tournament.t) (d f t : PyDate.date) (r fm c : option string),
    (forall x : Tournament.t,
       In x (filter_tournaments ts (Some d) (Some d) r fm c)
       <-> In x (filter_tournaments ts None None r fm c) /\ Tournament.date x = d)
    /\ (PyDate.ltb t f = true ->
        filter_tournaments ts (Some f) (Some t) r fm c = []).
Proof.
  intros ts d f t r fm c. split.
  - intros x.
    rewrite !filter_tournaments_In. unfold selected. simpl. split.
    + intros (Hin & Hlo & Hhi & Hrest). repeat split; try tauto.
      symmetry. now apply date_le_antisym.
    + intros ((Hin & _ & _ & Hrest) & <-). repeat split; try tauto; apply date_le_refl.
  - intros Hlt. rewrite filter_tournaments_filter. apply filter_none.
    intros x _. unfold passes.
    destruct (before (Some f) (Tournament.date x)) eqn:Hb; [reflexivity|].
    destruct (after (Some t) (Tournament.date x)) eqn:Ha; [reflexivity|].
    exfalso. apply before_spec in Hb. apply after_spec in Ha. simpl in Hb, Ha.
    apply date_ltb_le in Hlt as Hle.
    assert (E : t = f).
    { apply date_le_antisym; [exact Hle|]. eapply date_le_trans; eassumption. }
    subst t. unfold PyDate.ltb, PyDate.compare in Hlt.
    rewrite !Z.compare_refl in Hlt. discriminate.
Qed.

(** ** Integers written and read back *)

Lemma digit_facts_all (c : ascii) : digit_facts c = true.
Proof. apply (ascii_forall1 digit_facts). vm_compute. reflexivity. Qed.

Lemma digit_solid (c : ascii) :
  PyStr.is_digit c = true ->
  solid c = true /\ Ascii.eqb c "-" = false /\ Ascii.eqb c "+" = false.
Proof.
  intros H. pose proof (digit_facts_all c) as F. unfold digit_facts in F.
  rewrite H in F. simpl in F.
  apply andb_true_iff in F as [F Hp]. apply andb_true_iff in F as [F Hm].
  apply negb_true_iff in Hp, Hm. tauto.
Qed.

Lemma digit_char_facts (d : Z) :
  (0 <= d < 10)%Z ->
  PyStr.is_digit (PyInt.digit_char d) = true /\ PyInt.digit_val (PyInt.digit_char d) = d.
Proof.
  intros H. assert (Hin : In d (Z_range 0 10)) by (apply in_Z_range; lia).
  vm_compute in Hin.
  repeat (destruct Hin as [<-|Hin]; [split; reflexivity|]). destruct Hin.
Qed.

Lemma read_digits_snoc (v0 : Z) (ds : list ascii) (c : ascii) :
  read_digits v0 (ds ++ [c]) = (10 * read_digits v0 ds + PyInt.digit_val c)%Z.
Proof. unfold read_digits. now rewrite fold_left_app. Qed.

Lemma digits_aux_S (f : nat) (n : Z) (acc : string) :
  PyInt.digits_aux (S f) n acc
  = if (n <? 10)%Z then String (PyInt.digit_char (n mod 10)) acc
    else PyInt.digits_aux f (n / 10) (String (PyInt.digit_char (n mod 10)) acc).
Proof. reflexivity. Qed.

Lemma digits_aux_spec (f : nat) :
  forall (n : Z) (acc : string),
    (0 <= n < 2 ^ Z.of_nat (S f))%Z ->
    exists ds : list ascii,
      list_ascii_of_string (PyInt.digits_aux (S f) n acc) = ds ++ list_ascii_of_string acc
      /\ ds <> []
      /\ forallb PyStr.is_digit ds = true
      /\ (forall v0 : Z, read_digits v0 ds = (v0 * 10 ^ Z.of_nat (List.length ds) + n)%Z)
      /\ (forall k : nat, (n < 10 ^ Z.of_nat (S k))%Z -> (List.length ds <= S k)%nat).
Proof.
  assert (Hone : forall n acc, (0 <= n < 10)%Z ->
    exists ds : list ascii,
      list_ascii_of_string (String (PyInt.digit_char (n mod 10)) acc)
        = ds ++ list_ascii_of_string acc
      /\ ds <> []
      /\ forallb PyStr.is_digit ds = true
      /\ (forall v0 : Z, read_digits v0 ds = (v0 * 10 ^ Z.of_nat (List.length ds) + n)%Z)
      /\ (forall k : nat, (n < 10 ^ Z.of_nat (S k))%Z -> (List.length ds <= S k)%nat)).
  { intros n acc Hn. rewrite Z.mod_small by lia.
    destruct (digit_char_facts n Hn) as [Hd Hv].
    exists [PyInt.digit_char n]. split; [reflexivity|]. split; [discriminate|].
    split; [simpl; now rewrite Hd|].
    split; [|intros k _; simpl; lia].
    intros v0. unfold read_digits. simpl. rewrite Hv. lia. }
  induction f as [|f IH]; intros n acc Hn.
  - change (2 ^ Z.of_nat 1)%Z with 2%Z in Hn.
    rewrite digits_aux_S.
    assert (E : (n <? 10)%Z = true) by (apply Z.ltb_lt; lia).
    rewrite E. apply Hone. lia.
  - rewrite digits_aux_S. destruct (n <? 10)%Z eqn:E.
    + apply Hone. apply Z.ltb_lt in E. lia.
    + apply Z.ltb_ge in E.
      rewrite Nat2Z.inj_succ, Z.pow_succ_r in Hn by lia.
      assert (Hq : (0 <= n / 10 < 2 ^ Z.of_nat (S f))%Z).
      { pose proof (Z.pow_pos_nonneg 2 (Z.of_nat (S f))) as Hp.
        split; [apply Z.div_pos; lia|].
        apply Z.div_lt_upper_bound; lia. }
      destruct (IH (n / 10)%Z (String (PyInt.digit_char (n mod 10)) acc) Hq)
        as (ds & Hds & Hne & Hdig & Hval & Hlen).
      assert (Hr : (0 <= n mod 10 < 10)%Z) by (apply Z.mod_pos_bound; lia).
      destruct (digit_char_facts _ Hr) as [Hd Hv].
      exists (ds ++ [PyInt.digit_char (n mod 10)]).
      split; [rewrite Hds, <- app_assoc; reflexivity|].
      split; [destruct ds; discriminate|].
      split; [rewrite forallb_app, Hdig; simpl; now rewrite Hd|].
      split.
      * intros v0. rewrite read_digits_snoc, Hval, Hv, length_app.
        cbn [List.length]. rewrite Nat2Z.inj_add, Z.pow_add_r by lia.
        change (10 ^ Z.of_nat 1)%Z with 10%Z.
        pose proof (Z.div_mod n 10). lia.
      * intros k Hk. rewrite length_app. cbn [List.length].
        destruct k as [|k].
        { change (10 ^ Z.of_nat 1)%Z with 10%Z in Hk. lia. }
        assert (Hk' : (n / 10 < 10 ^ Z.of_nat (S k))%Z).
        { apply Z.div_lt_upper_bound; [lia|].
          rewrite <- Z.pow_succ_r by lia. now rewrite <- Nat2Z.inj_succ. }
        specialize (Hlen k Hk'). lia.
Qed.

Lemma drop_while_solid (p : ascii -> bool) (cs : list ascii) :
  Forall (fun c => p c = false) cs -> PyParse.drop_while p cs = cs.
Proof.
  unfold PyParse.drop_while. intros H. destruct H as [|c cs Hc _]; simpl; [reflexivity|].
  now rewrite Hc.
Qed.

Lemma trim_solid (cs : list ascii) :
  Forall (fun c => PyParse.is_cspace c = false) cs -> PyParse.trim cs = cs.
Proof.
  intros H. unfold PyParse.trim.
  rewrite (drop_while_solid _ cs H).
  rewrite (drop_while_solid _ (rev cs)) by now apply Forall_rev.
  apply rev_involutive.
Qed.

Lemma rstrip_solid (s : string) :
  Forall (fun c => PyStr.is_space c = false) (list_ascii_of_string s) -> PyStr.rstrip s = s.
Proof.
  induction s as [|c r IH]; simpl; intros H; [reflexivity|].
  inversion H as [|? ? Hc Hr]; subst. rewrite (IH Hr), Hc. now destruct r.
Qed.

Lemma strip_solid (s : string) :
  Forall (fun c => PyStr.is_space c = false) (list_ascii_of_string s) -> PyStr.strip s = s.
Proof.
  intros H. unfold PyStr.strip.
  assert (E : PyStr.lstrip s = s).
  { destruct s as [|c r]; [reflexivity|]. simpl.
    inversion H as [|? ? Hc _]; subst. now rewrite Hc. }
  rewrite E. now apply rstrip_solid.
Qed.

Lemma underscores_ok_digits (prev : ascii) (ds : list ascii) :
  PyParse.is_underscore prev = false ->
  forallb PyStr.is_digit ds = true ->
  PyParse.underscores_ok prev ds = true.
Proof.
  revert prev. induction ds as [|c ds IH]; intros prev Hp Hd; simpl.
  - now rewrite Hp.
  - simpl in Hd. apply andb_true_iff in Hd as [Hc Hd].
    destruct (digit_solid c Hc) as (Hs & _ & _).
    unfold solid in Hs. rewrite !andb_true_iff, !negb_true_iff in Hs.
    destruct Hs as ((_ & _) & Hu).
    rewrite Hu, Hp. simpl. now apply IH.
Qed.

Lemma remove_underscores_digits (ds : list ascii) :
  forallb PyStr.is_digit ds = true -> PyParse.remove_underscores ds = ds.
Proof.
  intros Hd. unfold PyParse.remove_underscores. apply filter_all_true_in.
  intros c Hc. rewrite forallb_forall in Hd.
  destruct (digit_solid c (Hd c Hc)) as (Hs & _ & _).
  unfold solid in Hs. rewrite !andb_true_iff in Hs. tauto.
Qed.

Lemma digits_solid (ds : list ascii) (p : ascii -> bool) :
  forallb PyStr.is_digit ds = true ->
  (forall c, solid c = true -> p c = false) ->
  Forall (fun c => p c = false) ds.
Proof.
  intros Hd Hp. apply List.Forall_forall. intros c Hc.
  rewrite forallb_forall in Hd. apply Hp. now destruct (digit_solid c (Hd c Hc)).
Qed.

Lemma solid_not_space (c : ascii) : solid c = true -> PyStr.is_space c = false.
Proof. unfold solid. rewrite !andb_true_iff, !negb_true_iff. tauto. Qed.

Lemma solid_not_cspace (c : ascii) : solid c = true -> PyParse.is_cspace c = false.
Proof. unfold solid. rewrite !andb_true_iff, !negb_true_iff. tauto. Qed.

Lemma py_int_signed_digits (s : string) (neg : bool) (ds : list ascii) :
  list_ascii_of_string s = (if neg then ["-"%char] else []) ++ ds ->
  ds <> [] ->
  forallb PyStr.is_digit ds = true ->
  (Z.of_nat (List.length ds) <= PyParse.int_max_str_digits)%Z ->
  PyStr.strip s = s
  /\ PyStr.truthy s = true
  /\ PyParse.py_int s = Some (if neg then (- read_digits 0 ds)%Z else read_digits 0 ds).
Proof.
  intros Hs Hne Hd Hlen.
  assert (Hsp : Forall (fun c => PyStr.is_space c = false) (list_ascii_of_string s)).
  { rewrite Hs. apply Forall_app. split.
    - destruct neg; repeat constructor.
    - apply (digits_solid ds _ Hd solid_not_space). }
  assert (Hcs : Forall (fun c => PyParse.is_cspace c = false) (list_ascii_of_string s)).
  { rewrite Hs. apply Forall_app. split.
    - destruct neg; repeat constructor.
    - apply (digits_solid ds _ Hd solid_not_cspace). }
  split; [now apply strip_solid|].
  split.
  { destruct s; [|reflexivity]. simpl in Hs. destruct neg, ds; simpl in Hs; congruence. }
  unfold PyParse.py_int. rewrite (trim_solid _ Hcs), Hs.
  assert (Hsign : PyParse.parse_sign ((if neg then ["-"%char] else []) ++ ds) = (neg, ds)).
  { destruct neg; [reflexivity|]. simpl. destruct ds as [|c ds]; [contradiction|].
    simpl in Hd. apply andb_true_iff in Hd as [Hc _].
    destruct (digit_solid c Hc) as (_ & Hm & Hp). simpl. now rewrite Hm, Hp. }
  rewrite Hsign.
  assert (Hnil : PyParse.is_nil ds = false) by (destruct ds; [contradiction|reflexivity]).
  rewrite Hnil.
  assert (Hall : forallb (fun c => PyStr.is_digit c || PyParse.is_underscore c) ds = true).
  { rewrite forallb_forall in *. intros c Hc. now rewrite (Hd c Hc). }
  rewrite Hall, (underscores_ok_digits "000"%char ds eq_refl Hd), (remove_underscores_digits ds Hd).
  apply Z.ltb_ge in Hlen. rewrite Hlen. reflexivity.
Qed.

Lemma str_digits (n : Z) :
  exists ds : list ascii,
    list_ascii_of_string (PyInt.str n) = (if (n <? 0)%Z then ["-"%char] else []) ++ ds
    /\ ds <> []
    /\ forallb PyStr.is_digit ds = true
    /\ read_digits 0 ds = Z.abs n
    /\ (forall k : nat, (Z.abs n < 10 ^ Z.of_nat (S k))%Z -> (List.length ds <= S k)%nat).
Proof.
  unfold PyInt.str.
  assert (Hb : (0 <= Z.abs n < 2 ^ Z.of_nat (S (Z.to_nat (Z.log2 (Z.abs n)))))%Z).
  { split; [lia|].
    rewrite Nat2Z.inj_succ, Z2Nat.id by apply Z.log2_nonneg.
    destruct (Z.eq_dec (Z.abs n) 0%Z) as [E|E].
    - rewrite E. reflexivity.
    - apply Z.log2_spec. lia. }
  destruct (digits_aux_spec _ (Z.abs n) "" Hb) as (ds & Hds & Hne & Hd & Hv & Hlen).
  simpl in Hds. rewrite app_nil_r in Hds.
  exists ds. split; [|split; [exact Hne|split; [exact Hd|split; [|exact Hlen]]]].
  - destruct (n <? 0)%Z; simpl; now rewrite Hds.
  - rewrite Hv. lia.
Qed.

Lemma max_digits_succ :
  PyParse.int_max_str_digits = Z.of_nat (S (Z.to_nat 4299)).
Proof. reflexivity. Qed.

(** X12: an integer of at most 4300 digits written in decimal, as the
    ledger stores the place and the number of players, is read back as the
    same integer by [int], by [to_int] and by [i_or_default]. *)
Theorem to_int_str :
  forall n : Z,
    (Z.abs n < 10 ^ PyParse.int_max_str_digits)%Z ->
    PyParse.py_int (PyInt.str n) = Some n
    /\ to_int (PyInt.str n) = n
    /\ (forall default : Z, i_or_default (Some (PyInt.str n)) default = n).
Proof.
  intros n Hn. destruct (str_digits n) as (ds & Hs & Hne & Hd & Hv & Hlen).
  assert (Hmax : (Z.of_nat (List.length ds) <= PyParse.int_max_str_digits)%Z).
  { rewrite max_digits_succ in *. apply Nat2Z.inj_le, Hlen, Hn. }
  destruct (py_int_signed_digits _ _ _ Hs Hne Hd Hmax) as (Hstrip & Htruthy & Hint).
  assert (E : PyParse.py_int (PyInt.str n) = Some n).
  { rewrite Hint, Hv. f_equal. destruct (n <? 0)%Z eqn:Hneg.
    - apply Z.ltb_lt in Hneg. lia.
    - apply Z.ltb_ge in Hneg. lia. }
  split; [exact E|]. split.
  - unfold to_int. now rewrite Hstrip, Htruthy, E.
  - intros default. unfold i_or_default. now rewrite E.
Qed.

Lemma to_int_str_witness :
  (Z.abs (-17) < 10 ^ PyParse.int_max_str_digits)%Z
  /\ PyParse.py_int (PyInt.str (-17)) = Some (-17)%Z
  /\ to_int (PyInt.str (-17)) = (-17)%Z
  /\ (forall default : Z, i_or_default (Some (PyInt.str (-17))) default = (-17)%Z).
Proof.
  assert (H : (Z.abs (-17) < 10 ^ PyParse.int_max_str_digits)%Z) by reflexivity.
  split; [exact H|]. exact (to_int_str (-17) H).
Defined.

(** ** Day and month keys *)

Lemma digits_dash_split (ds1 ds2 r1 r2 : list ascii) :
  forallb PyStr.is_digit ds1 = true ->
  forallb PyStr.is_digit ds2 = true ->
  ds1 ++ "-"%char :: r1 = ds2 ++ "-"%char :: r2 ->
  ds1 = ds2 /\ r1 = r2.
Proof.
  revert ds2. induction ds1 as [|c ds1 IH]; intros [|e ds2] H1 H2 E; simpl in *.
  - injection E as E. auto.
  - injection E as Ec _. subst e. discriminate.
  - injection E as Ec _. subst c. discriminate.
  - apply andb_true_iff in H1 as [_ H1]. apply andb_true_iff in H2 as [_ H2].
    injection E as Ec E. subst e.
    destruct (IH ds2 H1 H2 E) as [-> ->]. auto.
Qed.

Lemma str_dash_inj (y1 y2 : Z) (r1 r2 : string) :
  (0 <= y1)%Z -> (0 <= y2)%Z ->
  (PyInt.str y1 ++ String "-" r1 = PyInt.str y2 ++ String "-" r2)%string ->
  y1 = y2 /\ list_ascii_of_string r1 = list_ascii_of_string r2.
Proof.
  intros H1 H2 E. apply (f_equal list_ascii_of_string) in E.
  rewrite !list_ascii_app in E. cbn [list_ascii_of_string] in E.
  destruct (str_digits y1) as (ds1 & Hs1 & _ & Hd1 & Hv1 & _).
  destruct (str_digits y2) as (ds2 & Hs2 & _ & Hd2 & Hv2 & _).
  apply Z.ltb_ge in H1 as N1. apply Z.ltb_ge in H2 as N2.
  rewrite N1 in Hs1. rewrite N2 in Hs2. simpl in Hs1, Hs2.
  rewrite Hs1, Hs2 in E.
  destruct (digits_dash_split _ _ _ _ Hd1 Hd2 E) as [Eds Er].
  split; [|exact Er]. rewrite Eds in Hv1. lia.
Qed.

Lemma strftime_Ym_inj (a b : PyDate.date) :
  PyDate.valid a = true -> PyDate.valid b = true ->
  PyDate.strftime_Ym a = PyDate.strftime_Ym b ->
  PyDate.year a = PyDate.year b /\ PyDate.month a = PyDate.month b.
Proof.
  intros Ha Hb E.
  destruct (valid_ranges a Ha) as (Hya & Hma & _).
  destruct (valid_ranges b Hb) as (Hyb & Hmb & _).
  unfold PyDate.strftime_Ym in E.
  apply str_dash_inj in E as [Ey Er]; [|lia|lia].
  split; [exact Ey|].
  apply (f_equal (fun cs => PyDate.parse_month (cs ++ []))) in Er.
  rewrite !parse_month_zfill in Er by assumption.
  now injection Er.
Qed.

Lemma strftime_Ymd_inj (a b : PyDate.date) :
  PyDate.valid a = true -> PyDate.valid b = true ->
  PyDate.strftime_Ymd a = PyDate.strftime_Ymd b -> a = b.
Proof.
  intros Ha Hb E.
  destruct (valid_ranges a Ha) as (Hya & Hma & Hda).
  destruct (valid_ranges b Hb) as (Hyb & Hmb & Hdb).
  unfold PyDate.strftime_Ymd in E.
  apply str_dash_inj in E as [Ey Er]; [|lia|lia].
  rewrite !list_ascii_app in Er.
  apply (f_equal PyDate.parse_month) in Er.
  rewrite !parse_month_zfill in Er by assumption.
  injection Er as Em Er.
  apply (f_equal PyDate.parse_day) in Er.
  rewrite !parse_day_zfill in Er by assumption.
  injection Er as Ed.
  destruct a, b. cbn [PyDate.year PyDate.month PyDate.day] in *. congruence.
Qed.

(** X13: for records with valid dates, grouping by "day" puts two records
    under the same key exactly when they have the same date, and grouping by
    "month" exactly when they have the same year and month. *)
Theorem time_key_day_and_month :
  forall a b : Tournament.t,
    PyDate.valid (Tournament.date a) = true ->
    PyDate.valid (Tournament.date b) = true ->
    (time_key "day" a = time_key "day" b <-> Tournament.date a = Tournament.date b)
    /\ (time_key "month" a = time_key "month" b
        <-> PyDate.year (Tournament.date a) = PyDate.year (Tournament.date b)
            /\ PyDate.month (Tournament.date a) = PyDate.month (Tournament.date b)).
Proof.
  intros a b Ha Hb. split; split.
  - change (time_key "day" a) with (PyDate.strftime_Ymd (Tournament.date a)).
    change (time_key "day" b) with (PyDate.strftime_Ymd (Tournament.date b)).
    now apply strftime_Ymd_inj.
  - intros E. change (time_key "day" a) with (PyDate.strftime_Ymd (Tournament.date a)).
    change (time_key "day" b) with (PyDate.strftime_Ymd (Tournament.date b)).
    now rewrite E.
  - change (time_key "month" a) with (PyDate.strftime_Ym (Tournament.date a)).
    change (time_key "month" b) with (PyDate.strftime_Ym (Tournament.date b)).
    now apply strftime_Ym_inj.
  - intros [Ey Em].
    change (time_key "month" a) with (PyDate.strftime_Ym (Tournament.date a)).
    change (time_key "month" b) with (PyDate.strftime_Ym (Tournament.date b)).
    unfold PyDate.strftime_Ym. now rewrite Ey, Em.
Qed.

Lemma time_key_day_and_month_witness :
  PyDate.valid (Tournament.date (played_on 2024 3 9)) = true
  /\ PyDate.valid (Tournament.date (played_on 2024 3 10)) = true
  /\ (time_key "month" (played_on 2024 3 9) = time_key "month" (played_on 2024 3 10)
      <-> PyDate.year (Tournament.date (played_on 2024 3 9))
          = PyDate.year (Tournament.date (played_on 2024 3 10))
          /\ PyDate.month (Tournament.date (played_on 2024 3 9))
             = PyDate.month (Tournament.date (played_on 2024 3 10))).
Proof.
  split; [reflexivity|]. split; [reflexivity|].
  exact (proj2 (time_key_day_and_month (played_on 2024 3 9) (played_on 2024 3 10)
                  eq_refl eq_refl)).
Defined.
